(** * MaPoGo Tutor: the presentation layer and its contract with the pipeline

    A shallow embedding of the React components of the front end
    ([UploadView], [SummaryTab], [ExplainTab], [QuizTab], [DashboardView],
    [Index]) and the properties the specification states about the four
    operations they drive (upload, summary, explain, quiz).

    Each component is a record of its [useState] cells; each handler is a
    function on that record.  An [async] handler is split at its [await]:
    the part before it returns the new state and the request it issues (if
    any), the part after it consumes the outcome of the request. *)

From Stdlib Require Import ZArith NArith List String Ascii Bool Lia.
From Stdlib Require Import Decimal DecimalPos DecimalZ.
From stdpp Require Import base decidable option list gmap.
Import ListNotations.

Local Open Scope bool_scope.

(** ** The JavaScript values the components compute with *)

Module Js.

(** A JavaScript string: its sequence of UTF-16 code units. *)
Definition JsString : Type := list N.

(** A string literal of the source (all of them are ASCII). *)
Definition js (s : string) : JsString :=
  map N_of_ascii (list_ascii_of_string s).

(** The code units [String.prototype.trim] strips: WhiteSpace and
    LineTerminator of ECMA-262. *)
Definition whiteSpace : list N :=
  [ 9; 10; 11; 12; 13; 32; 160; 5760;
    8192; 8193; 8194; 8195; 8196; 8197; 8198; 8199; 8200; 8201; 8202;
    8232; 8233; 8239; 8287; 12288; 65279 ]%N.

Definition isWhiteSpace (c : N) : bool := existsb (N.eqb c) whiteSpace.

Fixpoint trimStart (s : JsString) : JsString :=
  match s with
  | [] => []
  | c :: r => if isWhiteSpace c then trimStart r else s
  end.

Definition trimEnd (s : JsString) : JsString := rev (trimStart (rev s)).

(** [s.trim()] *)
Definition trim (s : JsString) : JsString := trimEnd (trimStart s).

(** ToBoolean on a string: the empty string is the only falsy one. *)
Definition truthy (s : JsString) : bool :=
  match s with [] => false | _ :: _ => true end.

(** [a === b] on strings. *)
Definition strictEq (a b : JsString) : bool := bool_decide (a = b).

(** [a || b] where [a] is a string or [undefined]. *)
Definition orElse (a : option JsString) (b : JsString) : JsString :=
  match a with
  | Some s => if truthy s then s else b
  | None => b
  end.

(** ToBoolean on a string-or-undefined. *)
Definition truthy_opt (a : option JsString) : bool :=
  match a with Some s => truthy s | None => false end.

(** A Number as [parseInt] produces it: NaN, a double whose value is an
    integer, or an infinity.  [Num z] holds a finite double by its exact
    value [z]; the two zeros [+0] and [-0] (both falsy, both printed "0")
    are one [Num 0]. *)
Inductive JsNumber : Type :=
| NaN
| Num (z : Z)
| Infinity (negative : bool).

(** ToBoolean on a number. *)
Definition number_truthy (n : JsNumber) : bool :=
  match n with
  | NaN => false
  | Num z => negb (z =? 0)%Z
  | Infinity _ => true
  end.

(** The double nearest to a non-negative integer [a], as an integer:
    round to nearest, ties to even, on a mantissa of 53 bits.  A result of
    2^1024 or more stands for an overflow. *)
Definition roundMagnitude (a : Z) : Z :=
  if (a <? 2 ^ 53)%Z then a
  else
    let e := (Z.log2 a - 52)%Z in
    let q := (a / 2 ^ e)%Z in
    let r := (a mod 2 ^ e)%Z in
    let up := (2 ^ e <? 2 * r)%Z || ((2 ^ e =? 2 * r)%Z && Z.odd q) in
    ((if up then q + 1 else q) * 2 ^ e)%Z.

(** The Number value of a mathematical integer. *)
Definition toNumber (v : Z) : JsNumber :=
  let m := roundMagnitude (Z.abs v) in
  if (2 ^ 1024 <=? m)%Z then Infinity (v <? 0)%Z
  else Num (Z.sgn v * m).

(** [a || b] on numbers. *)
Definition number_or (a b : JsNumber) : JsNumber :=
  if number_truthy a then a else b.

(** The value of a code unit as a digit: 0-9, a-z, A-Z. *)
Definition digitValue (c : N) : option Z :=
  if (48 <=? c)%N && (c <=? 57)%N then Some (Z.of_N c - 48)%Z
  else if (97 <=? c)%N && (c <=? 122)%N then Some (Z.of_N c - 87)%Z
  else if (65 <=? c)%N && (c <=? 90)%N then Some (Z.of_N c - 55)%Z
  else None.

Definition radixDigit (R : Z) (c : N) : option Z :=
  match digitValue c with
  | Some d => if (d <? R)%Z then Some d else None
  | None => None
  end.

(** The longest prefix of [s] made of radix-[R] digits, as digit values. *)
Fixpoint digitsPrefix (R : Z) (s : JsString) : list Z :=
  match s with
  | [] => []
  | c :: r =>
      match radixDigit R c with
      | Some d => d :: digitsPrefix R r
      | None => []
      end
  end.

Definition mathInt (R : Z) (ds : list Z) : Z :=
  fold_left (fun acc d => acc * R + d)%Z ds 0%Z.

(** [parseInt(s)] with no radix argument (ECMA-262, 19.2.5): leading white
    space is skipped, then an optional sign, then an optional [0x]/[0X]
    that switches to radix 16; the digits that follow are read up to the
    first code unit that is not one, and no digit at all gives NaN.  The
    result is the Number value of the integer read: rounded to a double
    beyond 2^53, an infinity beyond the largest double.  (The standard
    lets an engine replace the decimal digits after the twentieth by
    zeros before rounding; the engines in use round the integer as it is
    written, which is what this function does.) *)
Definition parseInt (s : JsString) : JsNumber :=
  let s1 := trimStart s in
  let '(sign, s2) :=
    match s1 with
    | c :: r =>
        if (c =? 45)%N then ((-1)%Z, r)
        else if (c =? 43)%N then (1%Z, r)
        else (1%Z, s1)
    | [] => (1%Z, s1)
    end in
  let '(R, s3) :=
    match s2 with
    | c0 :: c1 :: r =>
        if (c0 =? 48)%N && ((c1 =? 120)%N || (c1 =? 88)%N)
        then (16%Z, r) else (10%Z, s2)
    | _ => (10%Z, s2)
    end in
  match digitsPrefix R s3 with
  | [] => NaN
  | ds => toNumber (sign * mathInt R ds)
  end.

Fixpoint uint_chars (u : Decimal.uint) : JsString :=
  match u with
  | Nil => []
  | D0 r => 48%N :: uint_chars r
  | D1 r => 49%N :: uint_chars r
  | D2 r => 50%N :: uint_chars r
  | D3 r => 51%N :: uint_chars r
  | D4 r => 52%N :: uint_chars r
  | D5 r => 53%N :: uint_chars r
  | D6 r => 54%N :: uint_chars r
  | D7 r => 55%N :: uint_chars r
  | D8 r => 56%N :: uint_chars r
  | D9 r => 57%N :: uint_chars r
  end.

(** The decimal digits of a non-negative integer. *)
Definition decimalDigits (a : Z) : JsString :=
  match a with
  | Z.pos p => uint_chars (Pos.to_uint p)
  | _ => [48%N]
  end.

(** The integer with the fewest significant digits that still denotes the
    double [x > 0] (ECMA-262, Number::toString): for one significant digit,
    then two, and so on ([p] is the weight of the last one), the multiples
    of [p] below and above [x] are tried; when both round to [x] the
    nearer one is taken, the one with an even last digit on a tie. *)
Fixpoint shortestFrom (fuel : nat) (p x : Z) : Z :=
  match fuel with
  | O => x
  | S fuel' =>
      let lo := (x / p * p)%Z in
      let hi := (lo + p)%Z in
      let okLo := (roundMagnitude lo =? x)%Z in
      let okHi := (roundMagnitude hi =? x)%Z in
      if okLo && okHi then
        if (x - lo <? hi - x)%Z then lo
        else if (hi - x <? x - lo)%Z then hi
        else if Z.even (x / p) then lo else hi
      else if okLo then lo
      else if okHi then hi
      else shortestFrom fuel' (p / 10) x
  end.

Definition shortest (x : Z) : Z :=
  let len := length (decimalDigits x) in
  shortestFrom len (10 ^ Z.of_nat (Nat.pred len)) x.

Fixpoint dropZeros (reversed : JsString) : JsString :=
  match reversed with
  | [] => []
  | c :: r => if (c =? 48)%N then dropZeros r else reversed
  end.

(** Exponent notation: the first significant digit, the others after a
    point, then [e+] and the exponent. *)
Definition exponential (v : Z) : JsString :=
  let digits := decimalDigits v in
  let significant := rev (dropZeros (rev digits)) in
  let exponent := decimalDigits (Z.of_nat (Nat.pred (length digits))) in
  match significant with
  | [] => digits
  | d :: [] => d :: 101%N :: 43%N :: exponent
  | d :: rest => d :: 46%N :: rest ++ 101%N :: 43%N :: exponent
  end.

(** A positive integer double in radix 10: plain digits up to 21 of them
    (below 10^21), exponent notation from there on. *)
Definition magnitudeToString (x : Z) : JsString :=
  let v := shortest x in
  if (v <? 10 ^ 21)%Z then decimalDigits v else exponential v.

(** [n.toString()] *)
Definition Number_toString (n : JsNumber) : JsString :=
  match n with
  | NaN => js "NaN"
  | Infinity false => js "Infinity"
  | Infinity true => js "-Infinity"
  | Num z =>
      if (z <? 0)%Z then 45%N :: magnitudeToString (Z.abs z)
      else magnitudeToString z
  end.

(** The value of a property in an object handed to [JSON.stringify]; the
    objects of the source are flat, so an object is the list of its
    properties. *)
Inductive JsonValue : Type :=
| JNull
| JNum (z : Z)
| JStr (s : JsString).

Definition JsonObject : Type := list (JsString * JsonValue).

(** [JSON.stringify] prints NaN and the infinities as [null]. *)
Definition json_of_number (n : JsNumber) : JsonValue :=
  match n with
  | NaN => JNull
  | Num z => JNum z
  | Infinity _ => JNull
  end.

(** A DOM [File]. *)
Record File : Type := mkFile {
  file_name : JsString;
  file_type : JsString;
  file_size : N
}.

End Js.
Import Js.

(** ** Requests issued with [fetch] and their outcomes *)

Module Http.

Inductive Method : Type := GET | POST.

Inductive Body : Type :=
| JsonBody (o : JsonObject)                   (* JSON.stringify(o) *)
| FormData (entries : list (JsString * File)). (* formData.append(k, f) *)

Record Request : Type := mkRequest {
  url : JsString;
  method : Method;
  headers : list (JsString * JsString);
  body : option Body
}.

(** What the [try] block of a handler observes: [Rejected] is any
    exception raised inside it ([fetch] rejects, the body is not JSON),
    which transfers control to [catch]; otherwise the response with its
    [ok] flag and its parsed body. *)
Inductive FetchResult (D : Type) : Type :=
| Rejected
| Response (ok : bool) (data : D).
Arguments Rejected {D}.
Arguments Response {D} ok data.

Definition is_failure {D} (r : FetchResult D) : bool :=
  match r with
  | Response true _ => false
  | _ => true
  end.

End Http.
Import Http.

(** ** ExplainTab *)

Module ExplainTab.

Record State : Type := mkState {
  conceptQuery : JsString;
  explanation : option JsString;   (* [None] is [undefined] *)
  isLoading : bool
}.

Definition init : State :=
  {| conceptQuery := []; explanation := Some []; isLoading := false |}.

(** The parsed body of a response: the field the component reads and the
    error description, which it does not read. *)
Record Data : Type := mkData {
  data_explanation : option JsString;
  data_error : option JsString
}.

Definition explainRequest (query : JsString) : Request :=
  {| url := js "http://localhost:5000/explain";
     method := POST;
     headers := [(js "Content-Type", js "application/json")];
     body := Some (JsonBody [(js "query", JStr query)]) |}.

(** [handleExplain] up to its [await fetch(...)]. *)
Definition handleExplain_start (st : State) : State * option Request :=
  if negb (truthy (trim (conceptQuery st))) then (st, None)
  else ({| conceptQuery := conceptQuery st;
           explanation := Some [];
           isLoading := true |},
        Some (explainRequest (conceptQuery st))).

(** [handleExplain] from the outcome of the request on. *)
Definition handleExplain_finish (r : FetchResult Data) (st : State) : State :=
  let shown :=
    match r with
    | Response true data => data_explanation data
    | Response false _ =>
        Some (js "Error generating explanation. Please try again.")
    | Rejected =>
        Some (js "Network error. Please check if the server is running.")
    end in
  {| conceptQuery := conceptQuery st;
     explanation := shown;
     isLoading := false |}.

Definition handleKeyPress (key : JsString) (shiftKey : bool) (st : State)
  : State * option Request :=
  if strictEq key (js "Enter") && negb shiftKey
  then handleExplain_start st
  else (st, None).

(** [disabled] of the button. *)
Definition buttonDisabled (st : State) : bool :=
  isLoading st || negb (truthy (trim (conceptQuery st))).

Inductive Event : Type :=
| Change (value : JsString)
| Click
| KeyPress (key : JsString) (shiftKey : bool)
| FetchDone (r : FetchResult Data).

Definition step (ev : Event) (st : State) : State * option Request :=
  match ev with
  | Change value =>
      ({| conceptQuery := value;
          explanation := explanation st;
          isLoading := isLoading st |}, None)
  | Click => handleExplain_start st
  | KeyPress key shiftKey => handleKeyPress key shiftKey st
  | FetchDone r => (handleExplain_finish r st, None)
  end.

(** The state after a sequence of events, and the requests issued. *)
Fixpoint run (evs : list Event) (st : State) : State * list Request :=
  match evs with
  | [] => (st, [])
  | ev :: rest =>
      let '(st1, req) := step ev st in
      let '(st2, reqs) := run rest st1 in
      (st2, match req with Some r => r :: reqs | None => reqs end)
  end.

(** Which events can occur: a disabled button is not clicked, and a
    request completes only while one is pending. *)
Definition enabled (pending : nat) (ev : Event) (st : State) : bool :=
  match ev with
  | Click => negb (buttonDisabled st)
  | FetchDone _ => negb (pending =? 0)%nat
  | _ => true
  end.

(** The result area. *)
Inductive View : Type :=
| Spinner
| Text (s : option JsString)
| Placeholder.

Definition render (st : State) : View :=
  if isLoading st then Spinner
  else if truthy_opt (explanation st) then Text (explanation st)
  else Placeholder.

End ExplainTab.

(** ** SummaryTab *)

Module SummaryTab.

Record State : Type := mkState {
  summary : option JsString;       (* [None] is [undefined] *)
  isLoading : bool;
  hasGenerated : bool
}.

Definition init : State :=
  {| summary := Some []; isLoading := false; hasGenerated := false |}.

(** The parsed body of a response: the field the component reads and the
    error description, which it does not read. *)
Record Data : Type := mkData {
  data_summary : option JsString;
  data_error : option JsString
}.

(** [fetch('http://localhost:5000/summary')]: one argument, so a GET with
    no header and no body. *)
Definition summaryRequest : Request :=
  {| url := js "http://localhost:5000/summary";
     method := GET;
     headers := [];
     body := None |}.

(** [handleGenerateSummary] up to its [await fetch(...)]. *)
Definition handleGenerateSummary_start (st : State) : State * option Request :=
  ({| summary := Some [];
      isLoading := true;
      hasGenerated := hasGenerated st |},
   Some summaryRequest).

(** [handleGenerateSummary] from the outcome of the request on. *)
Definition handleGenerateSummary_finish (r : FetchResult Data) (st : State)
  : State :=
  match r with
  | Response true data =>
      {| summary := data_summary data;
         isLoading := false;
         hasGenerated := true |}
  | Response false _ =>
      {| summary := Some (js "Error generating summary. Please try again.");
         isLoading := false;
         hasGenerated := hasGenerated st |}
  | Rejected =>
      {| summary :=
           Some (js "Network error. Please check if the server is running.");
         isLoading := false;
         hasGenerated := hasGenerated st |}
  end.

Definition buttonDisabled (st : State) : bool := isLoading st.

Inductive Event : Type :=
| Click
| FetchDone (r : FetchResult Data).

Definition step (ev : Event) (st : State) : State * option Request :=
  match ev with
  | Click => handleGenerateSummary_start st
  | FetchDone r => (handleGenerateSummary_finish r st, None)
  end.

Fixpoint run (evs : list Event) (st : State) : State * list Request :=
  match evs with
  | [] => (st, [])
  | ev :: rest =>
      let '(st1, req) := step ev st in
      let '(st2, reqs) := run rest st1 in
      (st2, match req with Some r => r :: reqs | None => reqs end)
  end.

Definition enabled (pending : nat) (ev : Event) (st : State) : bool :=
  match ev with
  | Click => negb (buttonDisabled st)
  | FetchDone _ => negb (pending =? 0)%nat
  end.

(** The result area. *)
Inductive View : Type :=
| Spinner
| Text (s : option JsString)
| Placeholder.

Definition render (st : State) : View :=
  if isLoading st then Spinner
  else if truthy_opt (summary st) then Text (summary st)
  else Placeholder.

End SummaryTab.

(** ** QuizTab *)

Module QuizTab.

Record QuizQuestion : Type := mkQuestion {
  question : JsString;
  options : list JsString;
  answer : JsString
}.

Record State : Type := mkState {
  quizDifficulty : JsString;
  numQuestions : JsNumber;
  quiz : option (list QuizQuestion);   (* [None] is [undefined] *)
  isLoading : bool;
  visibleAnswers : gset nat
}.

Definition init : State :=
  {| quizDifficulty := js "Medium";
     numQuestions := Num 5;
     quiz := Some [];
     isLoading := false;
     visibleAnswers := ∅ |}.

Record Data : Type := mkData {
  data_quiz : option (list QuizQuestion);
  data_error : option JsString
}.

(** The [<option>] elements of the difficulty [<select>]. *)
Inductive DifficultyOption : Type := Easy | Medium | Hard.

Definition option_value (o : DifficultyOption) : JsString :=
  match o with
  | Easy => js "Easy"
  | Medium => js "Medium"
  | Hard => js "Hard"
  end.

Definition difficulties : list JsString :=
  [js "Easy"; js "Medium"; js "Hard"].

(** [onChange] of the [<select>]: [setQuizDifficulty(e.target.value)]. *)
Definition handleDifficultyChange (value : JsString) (st : State) : State :=
  {| quizDifficulty := value;
     numQuestions := numQuestions st;
     quiz := quiz st;
     isLoading := isLoading st;
     visibleAnswers := visibleAnswers st |}.

(** [onChange] of the number input:
    [setNumQuestions(parseInt(e.target.value) || 5)]. *)
Definition handleNumQuestionsChange (value : JsString) (st : State) : State :=
  {| quizDifficulty := quizDifficulty st;
     numQuestions := number_or (parseInt value) (Num 5);
     quiz := quiz st;
     isLoading := isLoading st;
     visibleAnswers := visibleAnswers st |}.

Definition quizRequest (difficulty : JsString) (n : JsNumber) : Request :=
  {| url := js "http://localhost:5000/quiz";
     method := POST;
     headers := [(js "Content-Type", js "application/json")];
     body := Some (JsonBody
               [(js "difficulty", JStr difficulty);
                (js "num_questions",
                 json_of_number (parseInt (Number_toString n)))]) |}.

(** [handleGenerateQuiz] up to its [await fetch(...)]. *)
Definition handleGenerateQuiz_start (st : State) : State * option Request :=
  ({| quizDifficulty := quizDifficulty st;
      numQuestions := numQuestions st;
      quiz := Some [];
      isLoading := true;
      visibleAnswers := ∅ |},
   Some (quizRequest (quizDifficulty st) (numQuestions st))).

(** A line written with [console.error]. *)
Inductive ConsoleLine : Type :=
| ErrorGeneratingQuiz (detail : option JsString)
| NetworkError.

(** [handleGenerateQuiz] from the outcome of the request on: the new state
    and what goes to the console. *)
Definition handleGenerateQuiz_finish (r : FetchResult Data) (st : State)
  : State * option ConsoleLine :=
  match r with
  | Response true data =>
      ({| quizDifficulty := quizDifficulty st;
          numQuestions := numQuestions st;
          quiz := data_quiz data;
          isLoading := false;
          visibleAnswers := visibleAnswers st |}, None)
  | Response false data =>
      ({| quizDifficulty := quizDifficulty st;
          numQuestions := numQuestions st;
          quiz := quiz st;
          isLoading := false;
          visibleAnswers := visibleAnswers st |},
       Some (ErrorGeneratingQuiz (data_error data)))
  | Rejected =>
      ({| quizDifficulty := quizDifficulty st;
          numQuestions := numQuestions st;
          quiz := quiz st;
          isLoading := false;
          visibleAnswers := visibleAnswers st |},
       Some NetworkError)
  end.

Definition toggleAnswer (questionIndex : nat) (st : State) : State :=
  {| quizDifficulty := quizDifficulty st;
     numQuestions := numQuestions st;
     quiz := quiz st;
     isLoading := isLoading st;
     visibleAnswers :=
       if decide (questionIndex ∈ visibleAnswers st)
       then visibleAnswers st ∖ {[questionIndex]}
       else visibleAnswers st ∪ {[questionIndex]} |}.

Definition buttonDisabled (st : State) : bool := isLoading st.

Inductive Event : Type :=
| ChangeDifficulty (o : DifficultyOption)
| ChangeNumQuestions (value : JsString)
| ClickGenerate
| FetchDone (r : FetchResult Data)
| ToggleAnswer (questionIndex : nat).

Definition step (ev : Event) (st : State) : State * option Request :=
  match ev with
  | ChangeDifficulty o => (handleDifficultyChange (option_value o) st, None)
  | ChangeNumQuestions value => (handleNumQuestionsChange value st, None)
  | ClickGenerate => handleGenerateQuiz_start st
  | FetchDone r => (fst (handleGenerateQuiz_finish r st), None)
  | ToggleAnswer i => (toggleAnswer i st, None)
  end.

Fixpoint run (evs : list Event) (st : State) : State * list Request :=
  match evs with
  | [] => (st, [])
  | ev :: rest =>
      let '(st1, req) := step ev st in
      let '(st2, reqs) := run rest st1 in
      (st2, match req with Some r => r :: reqs | None => reqs end)
  end.

(** The result area.  With [quiz] undefined, reading [quiz.length] throws:
    the component does not render ([RenderError]), and since nothing
    catches the exception React unmounts the whole page (see
    [DashboardView.renderThrows] and [Index.step]). *)
Inductive View : Type :=
| Spinner
| Results (qs : list QuizQuestion) (shown : gset nat)
| Placeholder
| RenderError.

Definition render (st : State) : View :=
  if isLoading st then Spinner
  else match quiz st with
       | None => RenderError
       | Some [] => Placeholder
       | Some qs => Results qs (visibleAnswers st)
       end.

(** The answer of question [i] can be toggled when its card is drawn. *)
Definition enabled (pending : nat) (ev : Event) (st : State) : bool :=
  match ev with
  | ClickGenerate => negb (buttonDisabled st)
  | FetchDone _ => negb (pending =? 0)%nat
  | ToggleAnswer i =>
      match render st with
      | Results qs _ => (i <? length qs)%nat
      | _ => false
      end
  | _ => true
  end.

End QuizTab.

(** ** UploadView *)

Module UploadView.

Record State : Type := mkState {
  selectedFile : option File;      (* [None] is [null] *)
  isUploading : bool;
  dragOver : bool;
  statusMessage : JsString;
  isError : bool
}.

Definition init : State :=
  {| selectedFile := None;
     isUploading := false;
     dragOver := false;
     statusMessage := [];
     isError := false |}.

Record Data : Type := mkData { data_error : option JsString }.

Definition handleFileSelect (file : File) (st : State) : State :=
  if strictEq (file_type file) (js "application/pdf")
  then {| selectedFile := Some file;
          isUploading := isUploading st;
          dragOver := dragOver st;
          statusMessage := [];
          isError := false |}
  else {| selectedFile := selectedFile st;
          isUploading := isUploading st;
          dragOver := dragOver st;
          statusMessage := js "Please select a PDF file only.";
          isError := true |}.

Definition setDragOver (b : bool) (st : State) : State :=
  {| selectedFile := selectedFile st;
     isUploading := isUploading st;
     dragOver := b;
     statusMessage := statusMessage st;
     isError := isError st |}.

(** [files] is [Array.from(e.dataTransfer.files)]. *)
Definition handleDrop (files : list File) (st : State) : State :=
  let st1 := setDragOver false st in
  match files with
  | file :: _ => handleFileSelect file st1
  | [] => st1
  end.

Definition handleDragOver (st : State) : State := setDragOver true st.
Definition handleDragLeave (st : State) : State := setDragOver false st.

(** [files] is [e.target.files], which may be [null]. *)
Definition handleFileInputChange (files : option (list File)) (st : State)
  : State :=
  match files with
  | Some (file :: _) => handleFileSelect file st
  | _ => st
  end.

Definition uploadRequest (file : File) : Request :=
  {| url := js "http://localhost:5000/upload";
     method := POST;
     headers := [];
     body := Some (FormData [(js "file", file)]) |}.

(** [handleUpload] up to its [await fetch(...)]. *)
Definition handleUpload_start (st : State) : State * option Request :=
  match selectedFile st with
  | None => (st, None)
  | Some file =>
      ({| selectedFile := selectedFile st;
          isUploading := true;
          dragOver := dragOver st;
          statusMessage := [];
          isError := false |},
       Some (uploadRequest file))
  end.

(** [handleUpload] from the outcome of the request on.  The boolean says
    whether [setTimeout(() => onUploadSuccess(), 1000)] was called. *)
Definition handleUpload_finish (r : FetchResult Data) (st : State)
  : State * bool :=
  match r with
  | Response true _ =>
      ({| selectedFile := selectedFile st;
          isUploading := false;
          dragOver := dragOver st;
          statusMessage := js "PDF uploaded and processed successfully!";
          isError := isError st |}, true)
  | Response false data =>
      ({| selectedFile := selectedFile st;
          isUploading := false;
          dragOver := dragOver st;
          statusMessage :=
            orElse (data_error data) (js "Upload failed. Please try again.");
          isError := true |}, false)
  | Rejected =>
      ({| selectedFile := selectedFile st;
          isUploading := false;
          dragOver := dragOver st;
          statusMessage :=
            js "Network error. Please check if the server is running.";
          isError := true |}, false)
  end.

Definition buttonDisabled (st : State) : bool :=
  match selectedFile st with
  | None => true
  | Some _ => isUploading st
  end.

Inductive Event : Type :=
| Drop (files : list File)
| DragOver
| DragLeave
| InputChange (files : option (list File))
| ClickUpload
| FetchDone (r : FetchResult Data).

(** The new state, the request issued and whether a timer was set. *)
Definition step (ev : Event) (st : State) : State * option Request * bool :=
  match ev with
  | Drop files => (handleDrop files st, None, false)
  | DragOver => (handleDragOver st, None, false)
  | DragLeave => (handleDragLeave st, None, false)
  | InputChange files => (handleFileInputChange files st, None, false)
  | ClickUpload => (handleUpload_start st, false)
  | FetchDone r => let '(st1, timer) := handleUpload_finish r st in
                   (st1, None, timer)
  end.

Fixpoint run (evs : list Event) (st : State) : State * list Request :=
  match evs with
  | [] => (st, [])
  | ev :: rest =>
      let '(st1, req, _) := step ev st in
      let '(st2, reqs) := run rest st1 in
      (st2, match req with Some r => r :: reqs | None => reqs end)
  end.

Definition enabled (pending : nat) (ev : Event) (st : State) : bool :=
  match ev with
  | ClickUpload => negb (buttonDisabled st)
  | FetchDone _ => negb (pending =? 0)%nat
  | _ => true
  end.

(** The status banner under the button. *)
Inductive Banner : Type :=
| NoBanner
| ErrorBanner (message : JsString)
| SuccessBanner (message : JsString).

Definition renderStatus (st : State) : Banner :=
  if truthy (statusMessage st)
  then if isError st then ErrorBanner (statusMessage st)
       else SuccessBanner (statusMessage st)
  else NoBanner.

End UploadView.

(** ** DashboardView *)

Module DashboardView.

Definition tabs : list (JsString * JsString) :=
  [ (js "summary", js "Summary");
    (js "explain", js "Q&A Chatbot");
    (js "quiz", js "Quiz") ].

(** The tab component that is mounted, with its state and the number of
    its requests still pending. *)
Inductive Content : Type :=
| SummaryC (s : SummaryTab.State) (pending : nat)
| ExplainC (s : ExplainTab.State) (pending : nat)
| QuizC (s : QuizTab.State) (pending : nat)
| NoContent.

(** [{activeTab === 'summary' && <SummaryTab />}] and its two siblings:
    the component drawn for a value of [activeTab], freshly mounted. *)
Definition mount (activeTab : JsString) : Content :=
  if strictEq activeTab (js "summary") then SummaryC SummaryTab.init 0
  else if strictEq activeTab (js "explain") then ExplainC ExplainTab.init 0
  else if strictEq activeTab (js "quiz") then QuizC QuizTab.init 0
  else NoContent.

Record State : Type := mkState {
  activeTab : JsString;
  content : Content
}.

Definition init : State :=
  {| activeTab := js "summary"; content := mount (js "summary") |}.

(** [setActiveTab(id)]: setting the value it already has changes nothing;
    another value unmounts the tab shown and mounts the new one, whose
    state starts afresh. *)
Definition setActiveTab (id : JsString) (st : State) : State :=
  if strictEq id (activeTab st) then st
  else {| activeTab := id; content := mount id |}.

Inductive Event : Type :=
| ClickTab (i : nat)                 (* the i-th button of the tab bar *)
| SummaryEv (ev : SummaryTab.Event)
| ExplainEv (ev : ExplainTab.Event)
| QuizEv (ev : QuizTab.Event).

Definition pendingAfter {E} (isDone : E -> bool) (ev : E) (pending : nat)
    (req : option Request) : nat :=
  (if isDone ev then Nat.pred pending else pending)
  + (match req with Some _ => 1 | None => 0 end).

Definition summaryDone (ev : SummaryTab.Event) : bool :=
  match ev with SummaryTab.FetchDone _ => true | _ => false end.
Definition explainDone (ev : ExplainTab.Event) : bool :=
  match ev with ExplainTab.FetchDone _ => true | _ => false end.
Definition quizDone (ev : QuizTab.Event) : bool :=
  match ev with QuizTab.FetchDone _ => true | _ => false end.

(** One event of the dashboard while it is drawn; [None] when it cannot
    occur.  Whether the dashboard is still drawn is decided by the page
    ([Index.step]): once [renderThrows] holds nothing is mounted any more
    and no event reaches this function. *)
Definition step (ev : Event) (st : State) : option (State * option Request) :=
  match ev, content st with
  | ClickTab i, _ =>
      match tabs !! i with
      | Some (id, _) => Some (setActiveTab id st, None)
      | None => None
      end
  | SummaryEv e, SummaryC s pending =>
      if SummaryTab.enabled pending e s then
        let '(s1, req) := SummaryTab.step e s in
        Some ({| activeTab := activeTab st;
                 content := SummaryC s1 (pendingAfter summaryDone e pending req) |},
              req)
      else None
  | ExplainEv e, ExplainC s pending =>
      if ExplainTab.enabled pending e s then
        let '(s1, req) := ExplainTab.step e s in
        Some ({| activeTab := activeTab st;
                 content := ExplainC s1 (pendingAfter explainDone e pending req) |},
              req)
      else None
  | QuizEv e, QuizC s pending =>
      if QuizTab.enabled pending e s then
        let '(s1, req) := QuizTab.step e s in
        Some ({| activeTab := activeTab st;
                 content := QuizC s1 (pendingAfter quizDone e pending req) |},
              req)
      else None
  | _, _ => None
  end.

(** Drawing the dashboard throws: the mounted quiz tab reads
    [quiz.length] of [undefined].  No other component of the dashboard can
    throw while it renders. *)
Definition renderThrows (st : State) : bool :=
  match content st with
  | QuizC s _ =>
      match QuizTab.render s with
      | QuizTab.RenderError => true
      | _ => false
      end
  | _ => false
  end.

End DashboardView.

(** ** Index: the page *)

Module Index.

Inductive AppState : Type := upload | dashboard.

(** [appState] selects the view that is mounted: [uploadView] is the state
    of [<UploadView>] while [appState] is [upload], [dashboardView] that of
    [<DashboardView>] once it is [dashboard].  [uploadPending] counts the
    [handleUpload] calls waiting at their [await], [timers] the pending
    [setTimeout] callbacks. *)
Record State : Type := mkState {
  appState : AppState;
  uploadView : UploadView.State;
  dashboardView : DashboardView.State;
  uploadPending : nat;
  timers : nat
}.

Definition init : State :=
  {| appState := upload;
     uploadView := UploadView.init;
     dashboardView := DashboardView.init;
     uploadPending := 0;
     timers := 0 |}.

(** [handleUploadSuccess]: [setAppState('dashboard')].  Coming from
    [upload], the dashboard is mounted with its initial state. *)
Definition handleUploadSuccess (st : State) : State :=
  {| appState := dashboard;
     uploadView := uploadView st;
     dashboardView :=
       match appState st with
       | upload => DashboardView.init
       | dashboard => dashboardView st
       end;
     uploadPending := uploadPending st;
     timers := timers st |}.

Inductive Event : Type :=
| UploadEv (ev : UploadView.Event)
| TimerFires
| DashboardEv (ev : DashboardView.Event).

(** One event of the page; [None] when it cannot occur.  A user event
    reaches the view that is mounted.  The continuation of a pending
    [handleUpload] runs whatever is mounted: its state updates are lost on
    an unmounted [UploadView], its [setTimeout] call is not.  Once the
    render of the dashboard has thrown, React has unmounted the page:
    nothing is drawn and no event of the dashboard can occur any more;
    timers and pending uploads still complete, without any effect on the
    screen. *)
Definition step (ev : Event) (st : State) : option (State * option Request) :=
  match ev with
  | UploadEv (UploadView.FetchDone r) =>
      match uploadPending st with
      | O => None
      | S pending =>
          let '(u1, timer) := UploadView.handleUpload_finish r (uploadView st) in
          Some ({| appState := appState st;
                   uploadView :=
                     match appState st with
                     | upload => u1
                     | dashboard => uploadView st
                     end;
                   dashboardView := dashboardView st;
                   uploadPending := pending;
                   timers := if timer then S (timers st) else timers st |},
                None)
      end
  | UploadEv e =>
      match appState st with
      | upload =>
          if UploadView.enabled (uploadPending st) e (uploadView st) then
            let '(u1, req, _) := UploadView.step e (uploadView st) in
            Some ({| appState := appState st;
                     uploadView := u1;
                     dashboardView := dashboardView st;
                     uploadPending :=
                       match req with
                       | Some _ => S (uploadPending st)
                       | None => uploadPending st
                       end;
                     timers := timers st |},
                  req)
          else None
      | dashboard => None
      end
  | TimerFires =>
      match timers st with
      | O => None
      | S n =>
          let st1 := handleUploadSuccess st in
          Some ({| appState := appState st1;
                   uploadView := uploadView st1;
                   dashboardView := dashboardView st1;
                   uploadPending := uploadPending st1;
                   timers := n |},
                None)
      end
  | DashboardEv e =>
      match appState st with
      | dashboard =>
          if DashboardView.renderThrows (dashboardView st) then None
          else
            match DashboardView.step e (dashboardView st) with
            | Some (d1, req) =>
                Some ({| appState := appState st;
                         uploadView := uploadView st;
                         dashboardView := d1;
                         uploadPending := uploadPending st;
                         timers := timers st |},
                      req)
            | None => None
            end
      | upload => None
      end
  end.

(** What is on the screen: the upload view, the dashboard, or nothing once
    a render has thrown. *)
Inductive Screen : Type :=
| UploadScreen (u : UploadView.State)
| DashboardScreen (d : DashboardView.State)
| BlankScreen.

Definition screen (st : State) : Screen :=
  match appState st with
  | upload => UploadScreen (uploadView st)
  | dashboard =>
      if DashboardView.renderThrows (dashboardView st) then BlankScreen
      else DashboardScreen (dashboardView st)
  end.

(** A sequence of events: the final state and the requests issued, in
    order; [None] when one of the events cannot occur. *)
Fixpoint run (evs : list Event) (st : State) : option (State * list Request) :=
  match evs with
  | [] => Some (st, [])
  | ev :: rest =>
      match step ev st with
      | Some (st1, req) =>
          match run rest st1 with
          | Some (st2, reqs) =>
              Some (st2, match req with Some r => r :: reqs | None => reqs end)
          | None => None
          end
      | None => None
      end
  end.

Definition finalState (evs : list Event) (st : State) : State :=
  match run evs st with
  | Some (st', _) => st'
  | None => st
  end.

Definition requests (evs : list Event) (st : State) : list Request :=
  match run evs st with
  | Some (_, reqs) => reqs
  | None => []
  end.

Definition isUploadRequest (req : Request) : bool :=
  strictEq (url req) (js "http://localhost:5000/upload").

Definition isUploadSuccess (ev : Event) : bool :=
  match ev with
  | UploadEv (UploadView.FetchDone (Response true _)) => true
  | _ => false
  end.

End Index.

(** ** The quiz operation behind [POST /quiz] *)

Module Pipeline.

Import QuizTab.

(** Modelled from the spec: the failure kinds the quiz operation can
    surface (the back end that raises them is not among the sources): no
    active Session, task parameters that do not validate, output that
    fails the schema after the corrective retries. *)
Inductive ErrorKind : Type :=
| EmptyIndexError
| InvalidTaskParams
| GenerationFormatError.

(** Modelled from the spec: a request either completes or fails as a
    unit (the back end is not among the sources). *)
Inductive Outcome (A : Type) : Type :=
| Done (a : A)
| Failed (e : ErrorKind).
Arguments Done {A} a.
Arguments Failed {A} e.

(** Modelled from the spec: the Session held by the SessionStore, whose
    implementation (the Flask back end) is not among the sources. A
    Session binds the document to the chunks of its index. *)
Record Session : Type := mkSession { chunks : list JsString }.

Section Quiz.

(** The configured option count, the bound on corrective retries and
    the completion service: its parsed answer to the n-th attempt,
    [None] when the text does not parse. *)
Variable option_count : nat.
Variable max_retries : nat.
Variable complete : nat -> option (list QuizQuestion).

(** Modelled from the spec: the Generator's check of one question, which
    lives in the back end and is not among the sources. The options are
    non-empty and of the declared size, and the answer is exactly one of
    the options. *)
Definition valid_question (q : QuizQuestion) : bool :=
  negb (length (options q) =? 0)%nat
  && (length (options q) =? option_count)%nat
  && existsb (strictEq (answer q)) (options q).

(** Modelled from the spec: the Generator's check of a parsed quiz,
    absent from the sources like the rest of the Generator. Every
    question is valid and the count of questions matches the request. *)
Definition valid_quiz (n : nat) (qs : list QuizQuestion) : bool :=
  (length qs =? n)%nat && forallb valid_question qs.

(** Modelled from the spec: the Generator's retry loop (back end, not
    among the sources). On a parse or validation failure generation is
    retried, up to a bounded count, before GenerationFormatError is
    surfaced. The second component counts the calls made to the
    completion service. *)
Fixpoint generate_from (fuel attempt n : nat)
  : Outcome (list QuizQuestion) * nat :=
  match fuel with
  | O => (Failed GenerationFormatError, O)
  | S fuel' =>
      match complete attempt with
      | Some qs =>
          if valid_quiz n qs then (Done qs, 1%nat)
          else let '(o, calls) := generate_from fuel' (S attempt) n in
               (o, S calls)
      | None =>
          let '(o, calls) := generate_from fuel' (S attempt) n in
          (o, S calls)
      end
  end.

(** Modelled from the spec: the Generator's entry point for a quiz (back
    end, not among the sources): one attempt and at most [max_retries]
    retries. *)
Definition generate (n : nat) : Outcome (list QuizQuestion) * nat :=
  generate_from (S max_retries) 0 n.

(** Modelled from the spec: the PromptBuilder's validation of the quiz
    parameters (back end, not among the sources): the difficulty is one
    of Easy, Medium, Hard and num_questions is an integer in [1, 20]. *)
Definition valid_quiz_params (difficulty : JsString) (num_questions : Z)
  : bool :=
  existsb (strictEq difficulty) difficulties
  && (1 <=? num_questions)%Z && (num_questions <=? 20)%Z.

(** Modelled from the spec: the quiz operation of the exposed interface
    (back end, not among the sources). It fails when no Session is
    active, the parameters are validated when the prompt is built, and
    only then is the Generator called. *)
Definition quiz_operation (session : option Session)
    (difficulty : JsString) (num_questions : Z)
  : Outcome (list QuizQuestion) * nat :=
  match session with
  | None => (Failed EmptyIndexError, O)
  | Some _ =>
      if valid_quiz_params difficulty num_questions
      then generate (Z.to_nat num_questions)
      else (Failed InvalidTaskParams, O)
  end.

End Quiz.

(** Modelled from the spec: the user-visible message of a failure kind
    (the transport layer of the back end is not among the sources). *)
Definition error_message (e : ErrorKind) : JsString :=
  match e with
  | EmptyIndexError => js "no document loaded"
  | InvalidTaskParams => js "malformed input"
  | GenerationFormatError => js "temporary service issue, try again"
  end.

(** Modelled from the spec: how an outcome of the quiz operation reaches
    the caller (transport layer, not among the sources): the list of
    questions on success, a structured error otherwise. *)
Definition respond (o : Outcome (list QuizQuestion)) : FetchResult Data :=
  match o with
  | Done qs => Response true {| data_quiz := Some qs; data_error := None |}
  | Failed e =>
      Response false {| data_quiz := None;
                        data_error := Some (error_message e) |}
  end.

End Pipeline.

(** ** Predicates of the statements *)

(** The code units of the decimal digits. *)
Definition digitChar (c : N) : Prop := (48 <= c <= 57)%N.

Definition digitOf (c : N) : Z := (Z.of_N c - 48)%Z.

(** The decimal text of an integer, as it is typed. *)
Definition decimalText (z : Z) : JsString :=
  if (z <? 0)%Z then 45%N :: decimalDigits (Z.abs z) else decimalDigits z.

(** The weight of the digit before a numeral [u]. *)
Definition ten_pow (u : Decimal.uint) : Z :=
  (10 ^ Z.of_N (Unsigned.usize u))%Z.

(** No file, or a PDF. *)
Definition pdfOrNone (f : option File) : Prop :=
  match f with
  | Some file => file_type file = js "application/pdf"
  | None => True
  end.

(** Sample files. *)
Definition notesPdf : File :=
  {| file_name := js "notes.pdf";
     file_type := js "application/pdf";
     file_size := 1048576 |}.

Definition slidesPdf : File :=
  {| file_name := js "slides.pdf";
     file_type := js "application/pdf";
     file_size := 2097152 |}.

Definition readmeTxt : File :=
  {| file_name := js "readme.txt";
     file_type := js "text/plain";
     file_size := 120 |}.

(** A question made of a space, a tab, a line feed and a no-break space. *)
Definition blankQuestion : ExplainTab.State :=
  {| ExplainTab.conceptQuery := [32; 9; 10; 160]%N;
     ExplainTab.explanation := Some [];
     ExplainTab.isLoading := false |}.

Definition sampleSummary : SummaryTab.Data :=
  {| SummaryTab.data_summary := Some (js "Light reactions.");
     SummaryTab.data_error := None |}.

(** The upload view with [notes.pdf] selected. *)
Definition notesSelected : UploadView.State :=
  UploadView.handleFileSelect notesPdf UploadView.init.

(** Sample quiz questions and completion services. *)
Definition goodQuestion : QuizTab.QuizQuestion :=
  {| QuizTab.question := js "Which gas does photosynthesis release?";
     QuizTab.options := [js "Oxygen"; js "Nitrogen"; js "Methane"; js "Argon"];
     QuizTab.answer := js "Oxygen" |}.

Definition badQuestion : QuizTab.QuizQuestion :=
  {| QuizTab.question := js "Which gas does photosynthesis release?";
     QuizTab.options := [js "Oxygen"; js "Nitrogen"; js "Methane"; js "Argon"];
     QuizTab.answer := js "O2" |}.

(** Answers an ill-formed quiz, then text that does not parse, then a
    well-formed quiz of one question. *)
Definition flakyService (attempt : nat) : option (list QuizTab.QuizQuestion) :=
  match attempt with
  | 0 => Some [badQuestion]
  | 1 => None
  | _ => Some [goodQuestion]
  end.

(** Always answers a well-formed quiz of [n] questions. *)
Definition steadyService (n : nat) (attempt : nat)
  : option (list QuizTab.QuizQuestion) :=
  Some (repeat goodQuestion n).

Definition sampleSession : option Pipeline.Session :=
  Some {| Pipeline.chunks := [js "Photosynthesis releases oxygen."] |}.

(** Sample failure bodies of the server. *)
Definition noDocumentError : option JsString := Some (js "no document loaded").
Definition serviceError : option JsString :=
  Some (js "temporary service issue, try again").

(** A session in which a second document is uploaded after the first upload
    succeeded, before the page has moved to the dashboard. *)
Definition twoUploads : list Index.Event :=
  [ Index.UploadEv (UploadView.Drop [notesPdf]);
    Index.UploadEv UploadView.ClickUpload;
    Index.UploadEv (UploadView.FetchDone
      (Response true {| UploadView.data_error := None |}));
    Index.UploadEv (UploadView.InputChange (Some [slidesPdf]));
    Index.UploadEv UploadView.ClickUpload;
    Index.TimerFires ].

(** That session, followed by the failure of the second upload, which is
    still pending when the page moves to the dashboard. *)
Definition lateFailure : list Index.Event :=
  twoUploads ++ [Index.UploadEv (UploadView.FetchDone Rejected)].

(** Sessions that end with a summary, an explain and a quiz request
    pending on the dashboard. *)
Definition summaryAsked : list Index.Event :=
  [ Index.UploadEv (UploadView.Drop [notesPdf]);
    Index.UploadEv UploadView.ClickUpload;
    Index.UploadEv (UploadView.FetchDone
      (Response true {| UploadView.data_error := None |}));
    Index.TimerFires;
    Index.DashboardEv (DashboardView.SummaryEv SummaryTab.Click) ].

Definition explainAsked : list Index.Event :=
  [ Index.UploadEv (UploadView.Drop [notesPdf]);
    Index.UploadEv UploadView.ClickUpload;
    Index.UploadEv (UploadView.FetchDone
      (Response true {| UploadView.data_error := None |}));
    Index.TimerFires;
    Index.DashboardEv (DashboardView.ClickTab 1);
    Index.DashboardEv
      (DashboardView.ExplainEv (ExplainTab.Change (js "What produces oxygen?")));
    Index.DashboardEv (DashboardView.ExplainEv ExplainTab.Click) ].

(** A session in which the quiz endpoint answers [ok] with a body that has
    no [quiz] field. *)
Definition quizFieldMissing : list Index.Event :=
  [ Index.UploadEv (UploadView.Drop [notesPdf]);
    Index.UploadEv UploadView.ClickUpload;
    Index.UploadEv (UploadView.FetchDone
      (Response true {| UploadView.data_error := None |}));
    Index.TimerFires;
    Index.DashboardEv (DashboardView.ClickTab 2);
    Index.DashboardEv (DashboardView.QuizEv QuizTab.ClickGenerate);
    Index.DashboardEv
      (DashboardView.QuizEv
         (QuizTab.FetchDone
            (Response true {| QuizTab.data_quiz := None;
                              QuizTab.data_error := None |}))) ].

(** A session that uploads one document and reaches the dashboard. *)
Definition oneUpload : list Index.Event :=
  [ Index.UploadEv (UploadView.Drop [notesPdf]);
    Index.UploadEv UploadView.ClickUpload;
    Index.UploadEv (UploadView.FetchDone
      (Response true {| UploadView.data_error := None |}));
    Index.TimerFires ].

(** The page once that session has reached the dashboard. *)
Definition onDashboard : Index.State := Index.finalState oneUpload Index.init.

Definition askQuiz : list Index.Event :=
  [ Index.DashboardEv (DashboardView.ClickTab 2);
    Index.DashboardEv (DashboardView.QuizEv QuizTab.ClickGenerate) ].

(** ** What the components draw besides their result area *)

Module Render.

Import QuizTab.

(** [String.fromCharCode(n)]: the code unit [n] modulo 2^16. *)
Definition fromCharCode (n : N) : JsString := [(n mod 65536)%N].

(** The letter in front of an option:
    [String.fromCharCode(65 + optionIndex)]. *)
Definition optionLabel (optionIndex : nat) : JsString :=
  fromCharCode (65 + N.of_nat optionIndex).

(** Whether an option of question [questionIndex] is drawn in green:
    [visibleAnswers.has(questionIndex) && option === question.answer]. *)
Definition optionHighlighted (visible : gset nat) (questionIndex : nat)
    (q : QuizQuestion) (option : JsString) : bool :=
  bool_decide (questionIndex ∈ visible) && strictEq option (answer q).

(** The options of a card that are drawn in green, in order. *)
Definition highlightedOptions (visible : gset nat) (questionIndex : nat)
    (q : QuizQuestion) : list JsString :=
  List.filter (optionHighlighted visible questionIndex q) (options q).

(** The line under a card, [Correct Answer: {question.answer}], drawn when
    [visibleAnswers.has(questionIndex)]. *)
Definition answerLine (visible : gset nat) (questionIndex : nat)
    (q : QuizQuestion) : option JsString :=
  if bool_decide (questionIndex ∈ visible) then Some (answer q) else None.

(** The text of the summary button. *)
Inductive SummaryLabel : Type :=
| Generating
| RegenerateSummary
| GenerateSummary.

Definition summaryButtonLabel (st : SummaryTab.State) : SummaryLabel :=
  if SummaryTab.isLoading st then Generating
  else if SummaryTab.hasGenerated st then RegenerateSummary
  else GenerateSummary.


End Render.

(** ** Invariants of the page *)

(** The requests a component with a loading flag has pending. *)
Definition pendingOf (loading : bool) : nat := if loading then 1 else 0.

(** The mounted tab: its pending requests against its loading flag and, for
    the quiz, the revealed answers against the questions drawn. *)
Definition contentOk (c : DashboardView.Content) : Prop :=
  match c with
  | DashboardView.SummaryC s p => p = pendingOf (SummaryTab.isLoading s)
  | DashboardView.ExplainC s p => ExplainTab.isLoading s = true -> p <> O
  | DashboardView.QuizC s p =>
      p = pendingOf (QuizTab.isLoading s)
      /\ (QuizTab.isLoading s = true ->
          QuizTab.quiz s = Some [] /\ QuizTab.visibleAnswers s = ∅)
      /\ (forall i : nat, i ∈ QuizTab.visibleAnswers s ->
          exists qs, QuizTab.quiz s = Some qs /\ i < length qs)
      /\ In (QuizTab.quizDifficulty s) QuizTab.difficulties
      /\ number_truthy (QuizTab.numQuestions s) = true
  | DashboardView.NoContent => False
  end.

(** The tab that is mounted is the one [activeTab] names. *)
Definition tabMatches (d : DashboardView.State) : Prop :=
  match DashboardView.content d with
  | DashboardView.SummaryC _ _ => DashboardView.activeTab d = js "summary"
  | DashboardView.ExplainC _ _ => DashboardView.activeTab d = js "explain"
  | DashboardView.QuizC _ _ => DashboardView.activeTab d = js "quiz"
  | DashboardView.NoContent => False
  end.

Definition pageOk (st : Index.State) : Prop :=
  contentOk (DashboardView.content (Index.dashboardView st))
  /\ tabMatches (Index.dashboardView st)
  /\ pdfOrNone (UploadView.selectedFile (Index.uploadView st))
  /\ Index.uploadPending st <= 1
  /\ (Index.appState st = Index.upload ->
      Index.uploadPending st
      = pendingOf (UploadView.isUploading (Index.uploadView st))).

(** The requests the page is meant to issue. *)
Definition knownRequest (req : Request) : Prop :=
  (exists file, req = UploadView.uploadRequest file
                /\ file_type file = js "application/pdf")
  \/ req = SummaryTab.summaryRequest
  \/ (exists q, req = ExplainTab.explainRequest q /\ trim q <> [])
  \/ (exists d n, req = QuizTab.quizRequest d n
                  /\ In d QuizTab.difficulties
                  /\ number_truthy n = true).

(** A state of the page has an upload behind it: one is pending, or its
    timer is, or the dashboard is shown. *)
Definition uploadStarted (st : Index.State) : Prop :=
  Index.uploadPending st <> O
  \/ Index.timers st <> O
  \/ Index.appState st = Index.dashboard.

(** A session that reaches the quiz tab, receives a quiz of two questions
    and reveals the answer of the second. *)
Definition twoQuestions : QuizTab.Data :=
  {| QuizTab.data_quiz := Some [goodQuestion; badQuestion];
     QuizTab.data_error := None |}.

Definition quizSession : list Index.Event :=
  oneUpload
  ++ [ Index.DashboardEv (DashboardView.ClickTab 2);
       Index.DashboardEv (DashboardView.QuizEv QuizTab.ClickGenerate);
       Index.DashboardEv
         (DashboardView.QuizEv (QuizTab.FetchDone (Response true twoQuestions)));
       Index.DashboardEv (DashboardView.QuizEv (QuizTab.ToggleAnswer 1)) ].

(** The quiz tab at the end of that session. *)
Definition quizShown : QuizTab.State :=
  QuizTab.toggleAnswer 1
    (fst (QuizTab.handleGenerateQuiz_finish (Response true twoQuestions)
            (fst (QuizTab.handleGenerateQuiz_start QuizTab.init)))).

(** The explain tab while a request about oxygen is loading. *)
Definition askingOxygen : ExplainTab.State :=
  {| ExplainTab.conceptQuery := js "What produces oxygen?";
     ExplainTab.explanation := Some [];
     ExplainTab.isLoading := true |}.

(** An [ok] response of the summary endpoint. *)
Definition isSummarySuccess (ev : SummaryTab.Event) : Prop :=
  exists data, ev = SummaryTab.FetchDone (Response true data).

(** An [ok] response whose body has no [summary]. *)
Definition noSummary : SummaryTab.Data :=
  {| SummaryTab.data_summary := None; SummaryTab.data_error := None |}.

(** The session of two uploads, continued until the second upload has
    succeeded as well: its timer is pending on the dashboard. *)
Definition secondSuccess : list Index.Event :=
  twoUploads
  ++ [ Index.UploadEv (UploadView.FetchDone
         (Response true {| UploadView.data_error := None |})) ].

(** * Properties *)

(** ** Strings *)

Lemma trimStart_nil_iff (s : JsString) :
  trimStart s = [] <-> forallb isWhiteSpace s = true.
Proof.
  induction s as [|c r IH]; simpl; [tauto|].
  destruct (isWhiteSpace c); simpl; [exact IH|].
  split; discriminate.
Qed.

Lemma trimStart_head (s r : JsString) (c : N) :
  trimStart s = c :: r -> isWhiteSpace c = false.
Proof.
  induction s as [|d t IH]; cbn [trimStart]; [discriminate|].
  destruct (isWhiteSpace d) eqn:Ed; [exact IH|].
  intros [= <- _]. exact Ed.
Qed.

Lemma trim_nil_iff (s : JsString) :
  trim s = [] <-> forallb isWhiteSpace s = true.
Proof.
  unfold trim, trimEnd. split.
  - intros H. apply (f_equal (@rev N)) in H. rewrite rev_involutive in H.
    cbn [rev] in H. apply trimStart_nil_iff in H.
    destruct (trimStart s) as [|c r] eqn:E.
    + now apply trimStart_nil_iff.
    + rewrite forallb_forall in H.
      assert (Hc : isWhiteSpace c = true)
        by (apply H, in_rev; rewrite rev_involutive; now left).
      apply trimStart_head in E. congruence.
  - intros H. apply trimStart_nil_iff in H. now rewrite H.
Qed.

(** ** Numbers: [parseInt] and [toString] *)

Ltac neq_tests :=
  repeat match goal with
         | |- context [(?c =? ?k)%N] =>
             replace (c =? k)%N with false
               by (symmetry; apply N.eqb_neq; unfold digitChar in *; lia)
         end.

Lemma digitChar_not_space (c : N) : digitChar c -> isWhiteSpace c = false.
Proof. intros H. unfold isWhiteSpace, whiteSpace. cbn [existsb]. neq_tests. reflexivity. Qed.

Lemma digitChar_radixDigit (c : N) :
  digitChar c -> radixDigit 10 c = Some (digitOf c).
Proof.
  intros [H1 H2]. unfold radixDigit, digitValue, digitOf.
  replace (48 <=? c)%N with true by (symmetry; apply N.leb_le; lia).
  replace (c <=? 57)%N with true by (symmetry; apply N.leb_le; lia).
  cbn [andb].
  replace (Z.of_N c - 48 <? 10)%Z with true by (symmetry; apply Z.ltb_lt; lia).
  reflexivity.
Qed.

Lemma uint_chars_digits (u : Decimal.uint) : Forall digitChar (uint_chars u).
Proof. induction u; cbn [uint_chars]; constructor; auto; unfold digitChar; lia. Qed.

Lemma digitsPrefix_digits (s : JsString) :
  Forall digitChar s -> digitsPrefix 10 s = map digitOf s.
Proof.
  induction 1 as [|c r Hc Hr IH]; cbn [digitsPrefix map]; [reflexivity|].
  now rewrite digitChar_radixDigit, IH.
Qed.

Lemma parseInt_digits (c : N) (r : JsString) :
  Forall digitChar (c :: r) ->
  parseInt (c :: r) = toNumber (mathInt 10 (map digitOf (c :: r)))
  /\ parseInt (45%N :: c :: r)
     = toNumber (- mathInt 10 (map digitOf (c :: r))).
Proof.
  intros H. pose proof (digitsPrefix_digits _ H) as Hd.
  inversion H as [|? ? Hc Hr]; subst.
  assert (Hhex : match r with
                 | c1 :: r' => (c =? 48)%N && ((c1 =? 120)%N || (c1 =? 88)%N)
                 | [] => false end = false).
  { destruct r as [|c1 r']; [reflexivity|].
    inversion Hr; subst. neq_tests. now rewrite andb_false_r. }
  split.
  - unfold parseInt. cbn [trimStart]. rewrite (digitChar_not_space c Hc).
    neq_tests.
    destruct r as [|c1 r'].
    + rewrite Hd. cbn [map]. f_equal; try lia.
    + rewrite Hhex, Hd. cbn [map]. f_equal; try lia.
  - unfold parseInt. cbn [trimStart].
    change (isWhiteSpace 45) with false. cbn [N.eqb Pos.eqb].
    destruct r as [|c1 r'].
    + rewrite Hd. cbn [map]. f_equal; try lia.
    + rewrite Hhex, Hd. cbn [map]. f_equal; try lia.
Qed.

Lemma fold_digits (u : Decimal.uint) :
  forall acc : Z,
    fold_left (fun a d => a * 10 + d)%Z
      (map digitOf (uint_chars u)) acc
    = (acc * ten_pow u + Z.of_N (Unsigned.of_lu (Decimal.rev u)))%Z.
Proof.
  unfold ten_pow.
  induction u; intros acc;
    [cbn; lia | ..];
    cbn [uint_chars map fold_left]; rewrite IHu; unfold digitOf;
    unfold Decimal.rev at 2; cbn [Decimal.revapp];
    rewrite Unsigned.of_lu_revapp; cbn [Unsigned.usize Unsigned.of_lu];
    rewrite N2Z.inj_add, N2Z.inj_mul, N2Z.inj_pow, N2Z.inj_succ;
    rewrite Z.pow_succ_r by lia; cbn; lia.
Qed.

Lemma mathInt_uint_chars (u : Decimal.uint) :
  mathInt 10 (map digitOf (uint_chars u))
  = Z.of_N (Pos.of_uint u).
Proof.
  unfold mathInt. rewrite fold_digits, Unsigned.of_uint_alt. lia.
Qed.

(** [parseInt] of the decimal text of an integer is its Number value. *)
Lemma parseInt_decimalText (z : Z) : parseInt (decimalText z) = toNumber z.
Proof.
  assert (Hp : forall p, exists c r, uint_chars (Pos.to_uint p) = c :: r).
  { intros p. pose proof (Unsigned.to_uint_nonnil p) as H.
    destruct (Pos.to_uint p); cbn [uint_chars]; eauto. now elim H. }
  destruct z as [|p|p].
  - reflexivity.
  - change (decimalText (Z.pos p)) with (uint_chars (Pos.to_uint p)).
    destruct (Hp p) as (c & r & E).
    pose proof (uint_chars_digits (Pos.to_uint p)) as Hd. rewrite E in Hd.
    rewrite E, (proj1 (parseInt_digits c r Hd)), <- E, mathInt_uint_chars.
    now rewrite Unsigned.of_to.
  - change (decimalText (Z.neg p))
      with (45%N :: uint_chars (Pos.to_uint p)).
    destruct (Hp p) as (c & r & E).
    pose proof (uint_chars_digits (Pos.to_uint p)) as Hd. rewrite E in Hd.
    rewrite E, (proj2 (parseInt_digits c r Hd)), <- E, mathInt_uint_chars.
    now rewrite Unsigned.of_to.
Qed.

(** *** Doubles: the integers below 2^53 are exact *)

Lemma two_53 : (2 ^ 53 = 9007199254740992)%Z.
Proof. reflexivity. Qed.

Lemma roundMagnitude_small (a : Z) :
  (a < 2 ^ 53)%Z -> roundMagnitude a = a.
Proof.
  intros H. unfold roundMagnitude.
  now replace (a <? 2 ^ 53)%Z with true by (symmetry; now apply Z.ltb_lt).
Qed.

Lemma roundMagnitude_large (a : Z) :
  (2 ^ 53 <= a)%Z -> (2 ^ 53 <= roundMagnitude a)%Z.
Proof.
  intros H. unfold roundMagnitude.
  replace (a <? 2 ^ 53)%Z with false by (symmetry; now apply Z.ltb_ge).
  assert (Hlog : (53 <= Z.log2 a)%Z).
  { change 53%Z with (Z.log2 (2 ^ 53)). apply Z.log2_le_mono. exact H. }
  set (e := (Z.log2 a - 52)%Z).
  assert (He : (1 <= e)%Z) by (unfold e; lia).
  assert (Hpow : (2 <= 2 ^ e)%Z).
  { change 2%Z with (2 ^ 1)%Z at 1. apply Z.pow_le_mono_r; lia. }
  assert (Hq : (2 ^ 52 <= a / 2 ^ e)%Z).
  { apply Z.div_le_lower_bound; [lia|].
    rewrite <- Z.pow_add_r by lia.
    replace (e + 52)%Z with (Z.log2 a) by (unfold e; lia).
    apply Z.log2_spec. rewrite two_53 in H. lia. }
  cbv zeta.
  set (q := (a / 2 ^ e)%Z) in *.
  assert (H52 : (2 ^ 52 = 4503599627370496)%Z) by reflexivity.
  rewrite two_53, H52 in *.
  destruct (_ || _); nia.
Qed.

(** Only the integer itself rounds to an integer below 2^53. *)
Lemma roundMagnitude_safe (a x : Z) :
  (x < 2 ^ 53)%Z -> roundMagnitude a = x -> a = x.
Proof.
  intros Hx H. destruct (Z.lt_ge_cases a (2 ^ 53)) as [Ha|Ha].
  - now rewrite roundMagnitude_small in H.
  - apply roundMagnitude_large in Ha. lia.
Qed.

Lemma toNumber_safe (z : Z) : (Z.abs z < 2 ^ 53)%Z -> toNumber z = Num z.
Proof.
  intros H. unfold toNumber. rewrite roundMagnitude_small by exact H.
  assert (H1024 : (2 ^ 53 <= 2 ^ 1024)%Z) by (apply Z.pow_le_mono_r; lia).
  replace (2 ^ 1024 <=? Z.abs z)%Z with false
    by (symmetry; apply Z.leb_gt; lia).
  f_equal. lia.
Qed.

Lemma shortestFrom_safe (fuel : nat) :
  forall p x : Z, (x < 2 ^ 53)%Z -> shortestFrom fuel p x = x.
Proof.
  induction fuel as [|fuel IH]; intros p x Hx; cbn [shortestFrom];
    [reflexivity|].
  destruct (Z.eqb_spec (roundMagnitude (x / p * p)) x) as [Hlo|Hlo];
    destruct (Z.eqb_spec (roundMagnitude (x / p * p + p)) x) as [Hhi|Hhi];
    cbn [andb];
    try apply (roundMagnitude_safe _ _ Hx) in Hlo;
    try apply (roundMagnitude_safe _ _ Hx) in Hhi.
  - repeat match goal with |- context [if ?b then _ else _] => destruct b end;
      assumption.
  - exact Hlo.
  - exact Hhi.
  - now apply IH.
Qed.

(** A safe integer is printed as its decimal text. *)
Lemma Number_toString_safe (z : Z) :
  (Z.abs z < 2 ^ 53)%Z -> Number_toString (Num z) = decimalText z.
Proof.
  intros H.
  assert (Hm : forall x : Z, (0 <= x < 2 ^ 53)%Z ->
                             magnitudeToString x = decimalDigits x).
  { intros x Hx. unfold magnitudeToString, shortest.
    rewrite shortestFrom_safe by lia.
    replace (x <? 10 ^ 21)%Z with true; [reflexivity|].
    symmetry. apply Z.ltb_lt. rewrite two_53 in Hx.
    change (10 ^ 21)%Z with 1000000000000000000000%Z. lia. }
  unfold Number_toString, decimalText.
  destruct (Z.ltb_spec z 0); rewrite Hm by lia; reflexivity.
Qed.

(** [parseInt] reads back what [toString] prints of a safe integer. *)
Lemma parseInt_toString (z : Z) :
  (Z.abs z < 2 ^ 53)%Z -> parseInt (Number_toString (Num z)) = Num z.
Proof.
  intros H.
  now rewrite Number_toString_safe, parseInt_decimalText, toNumber_safe.
Qed.

(** The request of the quiz tab carries a stored safe integer as it is. *)
Lemma quiz_request_carries_count (difficulty : JsString) (z : Z) :
  (Z.abs z < 2 ^ 53)%Z ->
  QuizTab.quizRequest difficulty (Num z)
  = {| url := js "http://localhost:5000/quiz";
       method := POST;
       headers := [(js "Content-Type", js "application/json")];
       body := Some (JsonBody [(js "difficulty", JStr difficulty);
                               (js "num_questions", JNum z)]) |}.
Proof.
  intros H. unfold QuizTab.quizRequest. now rewrite parseInt_toString.
Qed.

(** ** ExplainTab *)

Lemma explain_start_request (st st' : ExplainTab.State) (req : Request) :
  ExplainTab.handleExplain_start st = (st', Some req) ->
  req = ExplainTab.explainRequest (ExplainTab.conceptQuery st)
  /\ trim (ExplainTab.conceptQuery st) <> [].
Proof.
  unfold ExplainTab.handleExplain_start.
  destruct (trim (ExplainTab.conceptQuery st)) eqn:E; simpl; [discriminate|].
  intros [= <- <-]. split; [reflexivity | discriminate].
Qed.

(** The request of any event of the tab asks a question that is not blank. *)
Lemma explain_step_request (ev : ExplainTab.Event) (st st' : ExplainTab.State)
    (req : Request) :
  ExplainTab.step ev st = (st', Some req) ->
  exists q, req = ExplainTab.explainRequest q /\ trim q <> [].
Proof.
  destruct ev as [value| |key shiftKey|r]; cbn [ExplainTab.step];
    try discriminate.
  - intros H. apply explain_start_request in H. destruct H as [-> H]. eauto.
  - unfold ExplainTab.handleKeyPress.
    destruct (strictEq key (js "Enter") && negb shiftKey); [|discriminate].
    intros H. apply explain_start_request in H. destruct H as [-> H]. eauto.
Qed.

(** C4. Every explain request that is issued, whatever the sequence of
    events (typing, clicking the button, pressing Enter, responses coming
    back), carries a question that is non-empty after trimming; and while
    the entered question is empty or made of white space only, neither the
    button nor the Enter key sends a request or changes the state. *)
Theorem explain_question_never_blank :
  (forall (evs : list ExplainTab.Event) (st : ExplainTab.State),
      Forall (fun req => exists q, req = ExplainTab.explainRequest q
                                   /\ trim q <> [])
             (snd (ExplainTab.run evs st)))
  /\ (forall (st : ExplainTab.State) (key : JsString) (shiftKey : bool),
         forallb isWhiteSpace (ExplainTab.conceptQuery st) = true ->
         ExplainTab.step ExplainTab.Click st = (st, None)
         /\ ExplainTab.step (ExplainTab.KeyPress key shiftKey) st = (st, None)).
Proof.
  split.
  - induction evs as [|ev rest IH]; intros st; cbn [ExplainTab.run].
    + constructor.
    + destruct (ExplainTab.step ev st) as [st1 req] eqn:Hstep.
      specialize (IH st1).
      destruct (ExplainTab.run rest st1) as [st2 reqs]. cbn [snd] in *.
      destruct req as [r|]; [|exact IH].
      constructor; [|exact IH].
      eapply explain_step_request; eassumption.
  - intros st key shiftKey Hblank. apply trim_nil_iff in Hblank.
    cbn [ExplainTab.step]. unfold ExplainTab.handleKeyPress.
    assert (Hs : ExplainTab.handleExplain_start st = (st, None))
      by (unfold ExplainTab.handleExplain_start; now rewrite Hblank).
    split; [exact Hs|].
    now destruct (strictEq key (js "Enter") && negb shiftKey).
Qed.

(** The blank question is not sent by the button or by Enter. *)
Lemma explain_question_never_blank_witness :
  ExplainTab.step ExplainTab.Click blankQuestion = (blankQuestion, None)
  /\ ExplainTab.step (ExplainTab.KeyPress (js "Enter") false) blankQuestion
     = (blankQuestion, None).
Proof.
  apply (proj2 explain_question_never_blank blankQuestion (js "Enter") false).
  reflexivity.
Defined.

Example explain_sends_untrimmed_question :
  snd (ExplainTab.run
         [ExplainTab.Change (js " What produces oxygen? "); ExplainTab.Click]
         ExplainTab.init)
  = [ExplainTab.explainRequest (js " What produces oxygen? ")].
Proof. reflexivity. Qed.

(** ** SummaryTab *)

(** C7. A summary request is [GET http://localhost:5000/summary] with no
    header and no body, and its URL has no query string (no question mark);
    this holds for the click handler and for every request of every event
    sequence.  On an [ok] response the [summary] field of the body becomes
    the [summary] state as it is, and a non-empty one is what the result
    area shows. *)
Theorem summary_request_has_no_parameters :
  (forall st : SummaryTab.State,
      snd (SummaryTab.handleGenerateSummary_start st)
      = Some SummaryTab.summaryRequest)
  /\ (forall (evs : list SummaryTab.Event) (st : SummaryTab.State),
         Forall (fun req => req = SummaryTab.summaryRequest)
                (snd (SummaryTab.run evs st)))
  /\ method SummaryTab.summaryRequest = GET
  /\ headers SummaryTab.summaryRequest = []
  /\ body SummaryTab.summaryRequest = None
  /\ ~ In 63%N (url SummaryTab.summaryRequest)
  /\ (forall (data : SummaryTab.Data) (st : SummaryTab.State),
         let st' := SummaryTab.handleGenerateSummary_finish
                      (Response true data) st in
         SummaryTab.summary st' = SummaryTab.data_summary data
         /\ (truthy_opt (SummaryTab.data_summary data) = true ->
             SummaryTab.render st'
             = SummaryTab.Text (SummaryTab.data_summary data))).
Proof.
  split; [reflexivity|].
  split.
  { induction evs as [|ev rest IH]; intros st; cbn [SummaryTab.run].
    - constructor.
    - destruct (SummaryTab.step ev st) as [st1 req] eqn:Hstep.
      specialize (IH st1).
      destruct (SummaryTab.run rest st1) as [st2 reqs]. cbn [snd] in *.
      destruct ev; cbn in Hstep; injection Hstep as <- <-;
        [constructor; [reflexivity|exact IH] | exact IH]. }
  repeat split.
  - vm_compute. intros H.
    repeat (destruct H as [H|H]; [discriminate H|]). exact H.
  - unfold SummaryTab.render. cbn. now intros ->.
Qed.

Lemma summary_request_has_no_parameters_witness :
  SummaryTab.render
    (SummaryTab.handleGenerateSummary_finish (Response true sampleSummary)
       SummaryTab.init)
  = SummaryTab.Text (Some (js "Light reactions.")).
Proof.
  apply (proj2 (proj2 (proj2 (proj2 (proj2 (proj2
           summary_request_has_no_parameters))))) sampleSummary SummaryTab.init).
  reflexivity.
Defined.

(** ** QuizTab: the question count *)

Lemma number_or_truthy (a b : JsNumber) :
  number_truthy b = true -> number_truthy (number_or a b) = true.
Proof. unfold number_or. now destruct (number_truthy a) eqn:E. Qed.

Lemma quiz_step_count (ev : QuizTab.Event) (st : QuizTab.State) :
  number_truthy (QuizTab.numQuestions st) = true ->
  number_truthy (QuizTab.numQuestions (fst (QuizTab.step ev st))) = true.
Proof.
  destruct ev as [o|value| |[|[] data]|i]; cbn; auto.
  intros _. now apply number_or_truthy.
Qed.

Lemma quiz_run_count (evs : list QuizTab.Event) :
  forall st : QuizTab.State,
    number_truthy (QuizTab.numQuestions st) = true ->
    number_truthy (QuizTab.numQuestions (fst (QuizTab.run evs st))) = true.
Proof.
  induction evs as [|ev rest IH]; intros st Hst; cbn [QuizTab.run];
    [exact Hst|].
  pose proof (quiz_step_count ev st Hst) as H1.
  destruct (QuizTab.step ev st) as [st1 req]. cbn [fst] in H1.
  specialize (IH st1 H1).
  now destruct (QuizTab.run rest st1) as [st2 reqs].
Qed.

(** C8. After a change event on the question-count input the stored
    [numQuestions] is neither NaN nor 0: a value that does not parse, or
    parses to 0, gives the default 5, and every other parsed integer,
    negative or above 20 included, is stored as it is.  Hence the stored
    count is neither NaN nor 0 after any sequence of events. *)
Theorem num_questions_change_never_zero_or_nan :
  forall (value : JsString) (st : QuizTab.State),
    let n := QuizTab.numQuestions (QuizTab.handleNumQuestionsChange value st) in
    n <> NaN
    /\ n <> Num 0
    /\ (parseInt value = NaN \/ parseInt value = Num 0 -> n = Num 5)
    /\ (forall z : Z, parseInt value = Num z -> z <> 0%Z -> n = Num z)
    /\ (forall evs : list QuizTab.Event,
           let m := QuizTab.numQuestions (fst (QuizTab.run evs QuizTab.init)) in
           m <> NaN /\ m <> Num 0).
Proof.
  intros value st.
  assert (Hinv : forall evs : list QuizTab.Event,
             let m := QuizTab.numQuestions
                        (fst (QuizTab.run evs QuizTab.init)) in
             m <> NaN /\ m <> Num 0).
  { intros evs m.
    assert (H : number_truthy m = true)
      by (apply quiz_run_count; reflexivity).
    destruct m as [|z|neg]; [discriminate H| |split; discriminate].
    split; [discriminate|]. intros [= ->]. discriminate H. }
  cbn [QuizTab.handleNumQuestionsChange QuizTab.numQuestions].
  unfold number_or.
  destruct (parseInt value) as [|z|neg]; cbn [number_truthy].
  - split; [discriminate|]. split; [discriminate|].
    split; [reflexivity|]. split; [discriminate | exact Hinv].
  - destruct (Z.eqb_spec z 0) as [->|Hz]; cbn [negb].
    + split; [discriminate|]. split; [discriminate|].
      split; [reflexivity|]. split; [|exact Hinv].
      intros z [= <-] Hz. now elim Hz.
    + split; [discriminate|]. split; [congruence|].
      split; [|split; [now intros z' [= <-] | exact Hinv]].
      intros [H|H]; [discriminate | congruence].
  - split; [discriminate|]. split; [discriminate|].
    split; [intros [H|H]; discriminate|]. split; [discriminate | exact Hinv].
Qed.

Lemma num_questions_change_never_zero_or_nan_witness :
  QuizTab.numQuestions
    (QuizTab.handleNumQuestionsChange (js "0") QuizTab.init) = Num 5
  /\ QuizTab.numQuestions
       (QuizTab.handleNumQuestionsChange (js "25") QuizTab.init) = Num 25.
Proof.
  split.
  - apply (proj1 (proj2 (proj2
             (num_questions_change_never_zero_or_nan (js "0") QuizTab.init)))).
    right. reflexivity.
  - apply (proj1 (proj2 (proj2 (proj2
             (num_questions_change_never_zero_or_nan (js "25") QuizTab.init))))
             25%Z); [reflexivity | lia].
Defined.

Example parseInt_samples :
  parseInt (js "") = NaN
  /\ parseInt (js "abc") = NaN
  /\ parseInt (js "-") = NaN
  /\ parseInt (js "0") = Num 0
  /\ parseInt (js "-0") = Num 0
  /\ parseInt (js "0.5") = Num 0
  /\ parseInt (js "7") = Num 7
  /\ parseInt (js " 12px") = Num 12
  /\ parseInt (js "1e5") = Num 1
  /\ parseInt (js "-3") = Num (-3)
  /\ parseInt (js "+21") = Num 21
  /\ parseInt (js "0x1A") = Num 26
  /\ parseInt (js "1000") = Num 1000.
Proof. repeat split; reflexivity. Qed.

Example num_questions_change_samples :
  map (fun v => QuizTab.numQuestions
                  (QuizTab.handleNumQuestionsChange (js v) QuizTab.init))
      ["0"; ""; "abc"; "-3"; "21"; "1000"; "20"; "1"]%string
  = [Num 5; Num 5; Num 5; Num (-3); Num 21; Num 1000; Num 20; Num 1].
Proof. reflexivity. Qed.

(** ** QuizTab: the difficulty *)

Lemma option_value_difficulty (o : QuizTab.DifficultyOption) :
  In (QuizTab.option_value o) QuizTab.difficulties.
Proof. destruct o; cbn; auto. Qed.

Lemma quiz_step_difficulty (ev : QuizTab.Event) (st : QuizTab.State) :
  In (QuizTab.quizDifficulty st) QuizTab.difficulties ->
  In (QuizTab.quizDifficulty (fst (QuizTab.step ev st))) QuizTab.difficulties.
Proof.
  destruct ev as [o|value| |[|[] data]|i]; cbn; auto.
  intros _. apply option_value_difficulty.
Qed.

Lemma quiz_step_request (ev : QuizTab.Event) (st : QuizTab.State)
    (req : Request) :
  snd (QuizTab.step ev st) = Some req ->
  req = QuizTab.quizRequest (QuizTab.quizDifficulty st)
                            (QuizTab.numQuestions st).
Proof.
  destruct ev; cbn; try discriminate. now intros [= <-].
Qed.

Lemma quiz_run_difficulty (evs : list QuizTab.Event) :
  forall st : QuizTab.State,
    In (QuizTab.quizDifficulty st) QuizTab.difficulties ->
    In (QuizTab.quizDifficulty (fst (QuizTab.run evs st))) QuizTab.difficulties
    /\ Forall (fun req => exists d n, req = QuizTab.quizRequest d n
                                      /\ In d QuizTab.difficulties)
              (snd (QuizTab.run evs st)).
Proof.
  induction evs as [|ev rest IH]; intros st Hst; cbn [QuizTab.run].
  - split; [exact Hst | constructor].
  - pose proof (quiz_step_difficulty ev st Hst) as H1.
    pose proof (quiz_step_request ev st) as H2.
    destruct (QuizTab.step ev st) as [st1 req]. cbn [fst snd] in *.
    destruct (IH st1 H1) as [IH1 IH2].
    destruct (QuizTab.run rest st1) as [st2 reqs]. cbn [fst snd] in *.
    split; [exact IH1|].
    destruct req as [r|]; [|exact IH2].
    constructor; [|exact IH2].
    rewrite (H2 r eq_refl). eauto.
Qed.

(** C6. The difficulty of every quiz request that is sent is one of Easy,
    Medium, Hard, and these are exactly the three values of the select:
    the state starts at one of them, every event keeps it among them, and
    so does every request of every event sequence. *)
Theorem quiz_difficulty_always_valid :
  QuizTab.difficulties = [js "Easy"; js "Medium"; js "Hard"]
  /\ In (QuizTab.quizDifficulty QuizTab.init) QuizTab.difficulties
  /\ (forall o : QuizTab.DifficultyOption,
         In (QuizTab.option_value o) QuizTab.difficulties)
  /\ (forall (ev : QuizTab.Event) (st : QuizTab.State),
         In (QuizTab.quizDifficulty st) QuizTab.difficulties ->
         In (QuizTab.quizDifficulty (fst (QuizTab.step ev st)))
            QuizTab.difficulties)
  /\ (forall evs : list QuizTab.Event,
         Forall (fun req => exists d n, req = QuizTab.quizRequest d n
                                        /\ In d QuizTab.difficulties)
                (snd (QuizTab.run evs QuizTab.init))).
Proof.
  assert (H0 : In (QuizTab.quizDifficulty QuizTab.init) QuizTab.difficulties)
    by (cbn; auto).
  split; [reflexivity|]. split; [exact H0|].
  split; [exact option_value_difficulty|].
  split; [exact quiz_step_difficulty|].
  intros evs. exact (proj2 (quiz_run_difficulty evs QuizTab.init H0)).
Qed.

Lemma quiz_difficulty_always_valid_witness :
  In (QuizTab.quizDifficulty
        (fst (QuizTab.step (QuizTab.ChangeDifficulty QuizTab.Hard)
                QuizTab.init)))
     QuizTab.difficulties.
Proof.
  apply (proj1 (proj2 (proj2 (proj2 quiz_difficulty_always_valid)))
           (QuizTab.ChangeDifficulty QuizTab.Hard) QuizTab.init).
  cbn. auto.
Defined.

Example quiz_request_after_choosing_hard :
  snd (QuizTab.run [QuizTab.ChangeDifficulty QuizTab.Hard;
                    QuizTab.ChangeNumQuestions (js "3");
                    QuizTab.ClickGenerate] QuizTab.init)
  = [ {| url := js "http://localhost:5000/quiz";
         method := POST;
         headers := [(js "Content-Type", js "application/json")];
         body := Some (JsonBody [(js "difficulty", JStr (js "Hard"));
                                 (js "num_questions", JNum 3)]) |} ].
Proof. reflexivity. Qed.

(** ** UploadView *)

Lemma strictEq_true (a b : JsString) : strictEq a b = true <-> a = b.
Proof. unfold strictEq. apply bool_decide_eq_true. Qed.

Lemma strictEq_false (a b : JsString) : strictEq a b = false <-> a <> b.
Proof. unfold strictEq. apply bool_decide_eq_false. Qed.

Lemma handleFileSelect_pdf (file : File) (st : UploadView.State) :
  pdfOrNone (UploadView.selectedFile st) ->
  pdfOrNone (UploadView.selectedFile (UploadView.handleFileSelect file st)).
Proof.
  unfold UploadView.handleFileSelect.
  destruct (strictEq (file_type file) (js "application/pdf")) eqn:E; cbn.
  - intros _. now apply strictEq_true.
  - auto.
Qed.

Lemma handleFileSelect_not_pdf (file : File) (st : UploadView.State) :
  file_type file <> js "application/pdf" ->
  UploadView.handleFileSelect file st
  = {| UploadView.selectedFile := UploadView.selectedFile st;
       UploadView.isUploading := UploadView.isUploading st;
       UploadView.dragOver := UploadView.dragOver st;
       UploadView.statusMessage := js "Please select a PDF file only.";
       UploadView.isError := true |}.
Proof.
  intros H. apply strictEq_false in H.
  unfold UploadView.handleFileSelect. now rewrite H.
Qed.

Lemma upload_step_pdf (ev : UploadView.Event) (st : UploadView.State) :
  pdfOrNone (UploadView.selectedFile st) ->
  pdfOrNone (UploadView.selectedFile (fst (fst (UploadView.step ev st))))
  /\ (forall req, snd (fst (UploadView.step ev st)) = Some req ->
      exists file, req = UploadView.uploadRequest file
                   /\ file_type file = js "application/pdf").
Proof.
  intros Hst.
  destruct ev as [files| | |files| |r]; cbn [UploadView.step fst snd].
  - split; [|discriminate].
    destruct files as [|file rest]; cbn; [exact Hst|].
    now apply handleFileSelect_pdf.
  - split; [exact Hst | discriminate].
  - split; [exact Hst | discriminate].
  - split; [|discriminate].
    destruct files as [[|file rest]|]; cbn; try exact Hst.
    now apply handleFileSelect_pdf.
  - unfold UploadView.handleUpload_start.
    destruct (UploadView.selectedFile st) as [file|] eqn:E; cbn.
    + split; [exact Hst|]. intros req [= <-]. eauto.
    + split; [now rewrite E | discriminate].
  - destruct r as [|[] data]; cbn; (split; [exact Hst | discriminate]).
Qed.

Lemma upload_run_pdf (evs : list UploadView.Event) :
  forall st : UploadView.State,
    pdfOrNone (UploadView.selectedFile st) ->
    pdfOrNone (UploadView.selectedFile (fst (UploadView.run evs st)))
    /\ Forall (fun req => exists file, req = UploadView.uploadRequest file
                          /\ file_type file = js "application/pdf")
              (snd (UploadView.run evs st)).
Proof.
  induction evs as [|ev rest IH]; intros st Hst; cbn [UploadView.run].
  - split; [exact Hst | constructor].
  - destruct (upload_step_pdf ev st Hst) as [H1 H2].
    destruct (UploadView.step ev st) as [[st1 req] timer].
    cbn [fst snd] in *.
    destruct (IH st1 H1) as [IH1 IH2].
    destruct (UploadView.run rest st1) as [st2 reqs]. cbn [fst snd] in *.
    split; [exact IH1|].
    destruct req as [r|]; [|exact IH2].
    constructor; [|exact IH2]. now apply H2.
Qed.

(** C9. A file whose type is not [application/pdf] is never the selected
    file and is never uploaded.  Dropped or picked, it leaves the selected
    file as it was and sets the error status "Please select a PDF file
    only."; and in every event sequence the selected file, when there is
    one, and the file of every upload request are PDFs. *)
Theorem non_pdf_file_never_selected :
  (forall (file : File) (rest : list File) (st : UploadView.State),
      file_type file <> js "application/pdf" ->
      let dropped := UploadView.handleDrop (file :: rest) st in
      let picked := UploadView.handleFileInputChange (Some (file :: rest)) st in
      UploadView.selectedFile dropped = UploadView.selectedFile st
      /\ UploadView.statusMessage dropped = js "Please select a PDF file only."
      /\ UploadView.isError dropped = true
      /\ UploadView.selectedFile picked = UploadView.selectedFile st
      /\ UploadView.statusMessage picked = js "Please select a PDF file only."
      /\ UploadView.isError picked = true)
  /\ (forall evs : list UploadView.Event,
         pdfOrNone
           (UploadView.selectedFile (fst (UploadView.run evs UploadView.init)))
         /\ Forall (fun req => exists file,
                        req = UploadView.uploadRequest file
                        /\ file_type file = js "application/pdf")
                   (snd (UploadView.run evs UploadView.init))).
Proof.
  split.
  - intros file rest st H. cbn zeta.
    cbn [UploadView.handleDrop UploadView.handleFileInputChange].
    rewrite !handleFileSelect_not_pdf by exact H. cbn. tauto.
  - intros evs. apply upload_run_pdf. exact I.
Qed.

Lemma non_pdf_file_never_selected_witness :
  UploadView.selectedFile (UploadView.handleDrop [readmeTxt] notesSelected)
  = Some notesPdf
  /\ UploadView.statusMessage (UploadView.handleDrop [readmeTxt] notesSelected)
     = js "Please select a PDF file only.".
Proof.
  assert (Hne : file_type readmeTxt <> js "application/pdf") by discriminate.
  pose proof (proj1 non_pdf_file_never_selected readmeTxt [] notesSelected Hne)
    as H.
  cbn zeta in H. destruct H as (H1 & H2 & _).
  split; [rewrite H1; reflexivity | exact H2].
Defined.

(** The non-empty string or the fallback: never the empty string. *)
Lemma orElse_nonempty (a : option JsString) (b : JsString) :
  b <> [] -> orElse a b <> [].
Proof.
  intros Hb. unfold orElse. destruct a as [[|c s]|]; cbn; auto.
Qed.

(** ** Index *)

(** What one event of the page can do to [appState] and to the timers. *)
Lemma index_step_appState (ev : Index.Event) (st st' : Index.State)
    (req : option Request) :
  Index.step ev st = Some (st', req) ->
  (Index.appState st' = Index.appState st
   \/ (ev = Index.TimerFires /\ Index.appState st = Index.upload
       /\ Index.appState st' = Index.dashboard /\ Index.timers st <> O))
  /\ (Index.timers st' <= Index.timers st
      \/ Index.isUploadSuccess ev = true).
Proof.
  destruct ev as [[files| | |files| |r]| |e]; cbn [Index.step].
  1-5: destruct (Index.appState st); [|discriminate];
       match goal with
       | |- context [UploadView.enabled ?p ?e ?u] =>
           destruct (UploadView.enabled p e u); [|discriminate];
           destruct (UploadView.step e u) as [[u1 rq] t]
       end;
       intros [= <- <-]; cbn; auto.
  - destruct (Index.uploadPending st); [discriminate|].
    destruct r as [|[] data]; cbn; intros [= <- <-]; cbn; auto.
  - destruct (Index.timers st) eqn:Et; [discriminate|].
    intros [= <- <-]; cbn. split; [|left; lia].
    destruct (Index.appState st); [right | left]; auto.
  - destruct (Index.appState st); [discriminate|].
    destruct (DashboardView.renderThrows (Index.dashboardView st));
      [discriminate|].
    destruct (DashboardView.step e (Index.dashboardView st)) as [[d1 rq]|];
      [|discriminate].
    intros [= <- <-]; cbn; auto.
Qed.

(** The dashboard is reached only after a successful upload. *)
Lemma dashboard_needs_upload_success (evs : list Index.Event) :
  forall (st st' : Index.State) (reqs : list Request),
    Index.run evs st = Some (st', reqs) ->
    Index.appState st' = Index.dashboard ->
    Index.appState st = Index.dashboard
    \/ Index.timers st <> O
    \/ Exists (fun ev => Index.isUploadSuccess ev = true) evs.
Proof.
  induction evs as [|ev rest IH]; intros st st' reqs; cbn [Index.run].
  - intros [= <- <-]. auto.
  - destruct (Index.step ev st) as [[st1 req]|] eqn:Hstep; [|discriminate].
    destruct (Index.run rest st1) as [[st2 reqs2]|] eqn:Hrun; [|discriminate].
    intros [= <- <-] Hd.
    apply index_step_appState in Hstep. destruct Hstep as [Ha Ht].
    destruct (IH _ _ _ Hrun Hd) as [H|[H|H]].
    + destruct Ha as [Ha|(_ & _ & _ & Ha)]; [left; congruence | auto].
    + destruct Ht as [Ht|Ht]; [right; left; lia|].
      right; right. now constructor.
    + right; right. now constructor 2.
Qed.

(** No event but its own firing removes a pending timer. *)
Lemma index_step_timers (ev : Index.Event) (st st' : Index.State)
    (req : option Request) :
  Index.step ev st = Some (st', req) ->
  ev <> Index.TimerFires ->
  Index.timers st <= Index.timers st'.
Proof.
  destruct ev as [[files| | |files| |r]| |e]; cbn [Index.step].
  1-5: destruct (Index.appState st); [|discriminate];
       match goal with
       | |- context [UploadView.enabled ?p ?e ?u] =>
           destruct (UploadView.enabled p e u); [|discriminate];
           destruct (UploadView.step e u) as [[u1 rq] t]
       end;
       intros [= <- <-]; cbn; auto.
  - destruct (Index.uploadPending st); [discriminate|].
    destruct r as [|[] data]; cbn; intros [= <- <-]; cbn; auto.
  - intros _ H. now elim H.
  - destruct (Index.appState st); [discriminate|].
    destruct (DashboardView.renderThrows (Index.dashboardView st));
      [discriminate|].
    destruct (DashboardView.step e (Index.dashboardView st)) as [[d1 rq]|];
      [|discriminate].
    intros [= <- <-]; cbn; auto.
Qed.

(** C5. An upload sends exactly one document: the body of the request is a
    form with the single entry [file], the selected file.  When the request
    completes, on success or on failure, the status message is not empty;
    the transition to the dashboard is scheduled exactly on success, and
    the page reaches the dashboard only after a successful upload.  A
    success does start the session: the response of a pending upload sets
    one timer when it is [ok] and none otherwise, leaving [appState] as it
    is; no other event removes a pending timer; and a pending timer can
    always fire, which puts the page on the dashboard, freshly mounted when
    it comes from the upload view. *)
Theorem upload_one_document_and_status :
  (forall (st : UploadView.State) (file : File),
      UploadView.selectedFile st = Some file ->
      exists req, snd (UploadView.handleUpload_start st) = Some req
                  /\ body req = Some (FormData [(js "file", file)]))
  /\ (forall (r : FetchResult UploadView.Data) (st : UploadView.State),
         let st' := fst (UploadView.handleUpload_finish r st) in
         let scheduled := snd (UploadView.handleUpload_finish r st) in
         UploadView.statusMessage st' <> []
         /\ UploadView.isUploading st' = false
         /\ scheduled = negb (is_failure r)
         /\ (is_failure r = true -> UploadView.isError st' = true))
  /\ (forall (evs : list Index.Event) (st' : Index.State)
             (reqs : list Request),
         Index.run evs Index.init = Some (st', reqs) ->
         Index.appState st' = Index.dashboard ->
         Exists (fun ev => Index.isUploadSuccess ev = true) evs)
  /\ (forall (r : FetchResult UploadView.Data) (st : Index.State),
         Index.uploadPending st <> O ->
         exists st1,
           Index.step (Index.UploadEv (UploadView.FetchDone r)) st
           = Some (st1, None)
           /\ Index.appState st1 = Index.appState st
           /\ Index.timers st1
              = if is_failure r then Index.timers st
                else S (Index.timers st))
  /\ (forall (ev : Index.Event) (st st' : Index.State)
             (req : option Request),
         Index.step ev st = Some (st', req) ->
         ev <> Index.TimerFires ->
         Index.timers st <= Index.timers st')
  /\ (forall st : Index.State,
         Index.timers st <> O ->
         exists st2,
           Index.step Index.TimerFires st = Some (st2, None)
           /\ Index.appState st2 = Index.dashboard
           /\ (Index.appState st = Index.upload ->
               Index.dashboardView st2 = DashboardView.init)).
Proof.
  split; [|split; [|split; [|split; [|split]]]].
  - intros st file H. unfold UploadView.handleUpload_start. rewrite H.
    cbn. eauto.
  - intros r st. destruct r as [|[] data]; cbn.
    + repeat split; discriminate.
    + repeat split; try discriminate.
    + repeat split; try discriminate.
      apply orElse_nonempty. discriminate.
  - intros evs st' reqs Hrun Hd.
    destruct (dashboard_needs_upload_success evs _ _ _ Hrun Hd) as [H|[H|H]].
    + discriminate H.
    + now elim H.
    + exact H.
  - intros r st Hp. cbn [Index.step].
    destruct (Index.uploadPending st) as [|pending]; [now elim Hp|].
    destruct r as [|[] data]; cbn; eauto.
  - exact index_step_timers.
  - intros st Ht. cbn [Index.step].
    destruct (Index.timers st) as [|n]; [now elim Ht|].
    eexists. split; [reflexivity|]. cbn. split; [reflexivity|].
    now intros ->.
Qed.

Lemma upload_one_document_and_status_witness :
  (exists req,
      snd (UploadView.handleUpload_start notesSelected) = Some req
      /\ body req = Some (FormData [(js "file", notesPdf)]))
  /\ Exists (fun ev => Index.isUploadSuccess ev = true) oneUpload
  /\ (exists st2,
         Index.step Index.TimerFires
           (Index.finalState (firstn 3 oneUpload) Index.init)
         = Some (st2, None)
         /\ Index.appState st2 = Index.dashboard
         /\ (Index.appState (Index.finalState (firstn 3 oneUpload) Index.init)
             = Index.upload ->
             Index.dashboardView st2 = DashboardView.init)).
Proof.
  split; [|split].
  - apply (proj1 upload_one_document_and_status notesSelected notesPdf).
    reflexivity.
  - apply (proj1 (proj2 (proj2 upload_one_document_and_status)) oneUpload
             (Index.finalState oneUpload Index.init)
             (Index.requests oneUpload Index.init)); reflexivity.
  - apply (proj2 (proj2 (proj2 (proj2 (proj2
             upload_one_document_and_status))))
             (Index.finalState (firstn 3 oneUpload) Index.init)).
    discriminate.
Defined.

Example one_upload_reaches_the_dashboard :
  Index.screen (Index.finalState oneUpload Index.init)
  = Index.DashboardScreen DashboardView.init.
Proof. reflexivity. Qed.

(** The requests of the dashboard go to the summary, explain and quiz
    endpoints. *)
Lemma dashboard_step_not_upload (e : DashboardView.Event)
    (d d1 : DashboardView.State) (req : Request) :
  DashboardView.step e d = Some (d1, Some req) ->
  Index.isUploadRequest req = false.
Proof.
  unfold DashboardView.step.
  destruct e as [i|ev|ev|ev].
  - destruct (DashboardView.tabs !! i) as [[id label]|]; discriminate.
  - destruct (DashboardView.content d) as [s p|s p|s p|]; try discriminate.
    destruct (SummaryTab.enabled p ev s); [|discriminate].
    destruct ev; cbn; intros [= _ <-]; reflexivity.
  - destruct (DashboardView.content d) as [s p|s p|s p|]; try discriminate.
    destruct (ExplainTab.enabled p ev s); [|discriminate].
    destruct (ExplainTab.step ev s) as [s1 rq] eqn:Hstep.
    intros [= _ ->].
    apply explain_step_request in Hstep. destruct Hstep as (q & -> & _).
    reflexivity.
  - destruct (DashboardView.content d) as [s p|s p|s p|]; try discriminate.
    destruct (QuizTab.enabled p ev s); [|discriminate].
    pose proof (quiz_step_request ev s) as Hreq.
    destruct (QuizTab.step ev s) as [s1 rq]. cbn [snd] in Hreq.
    intros [= _ ->]. rewrite (Hreq req eq_refl). reflexivity.
Qed.

Lemma index_step_dashboard (ev : Index.Event) (st st' : Index.State)
    (req : option Request) :
  Index.step ev st = Some (st', req) ->
  Index.appState st = Index.dashboard ->
  Index.appState st' = Index.dashboard
  /\ (forall r, req = Some r -> Index.isUploadRequest r = false).
Proof.
  intros Hstep Hd. split.
  - apply index_step_appState in Hstep.
    destruct Hstep as [[H|(_ & H & _)] _]; congruence.
  - intros r ->. revert Hstep.
    destruct ev as [[files| | |files| |rr]| |e]; cbn [Index.step]; rewrite ?Hd;
      try discriminate.
    + destruct (Index.uploadPending st); [discriminate|].
      destruct (UploadView.handleUpload_finish rr (Index.uploadView st)).
      discriminate.
    + destruct (Index.timers st); discriminate.
    + destruct (DashboardView.renderThrows (Index.dashboardView st));
        [discriminate|].
      destruct (DashboardView.step e (Index.dashboardView st))
        as [[d1 rq]|] eqn:Hs; [|discriminate].
      intros [= _ ->]. eapply dashboard_step_not_upload; eassumption.
Qed.

(** C10, as the code has it. [appState] changes only from [upload] to
    [dashboard], and only when the timer set by a successful upload fires.
    Once it is [dashboard] it stays so under every sequence of events of
    the page, and no request issued from then on is an upload.  The page
    reaches the dashboard only after a successful upload. *)
Theorem dashboard_is_final :
  (forall (ev : Index.Event) (st st' : Index.State) (req : option Request),
      Index.step ev st = Some (st', req) ->
      Index.appState st' <> Index.appState st ->
      ev = Index.TimerFires
      /\ Index.appState st = Index.upload
      /\ Index.appState st' = Index.dashboard)
  /\ (forall (evs : list Index.Event) (st st' : Index.State)
             (reqs : list Request),
         Index.run evs st = Some (st', reqs) ->
         Index.appState st = Index.dashboard ->
         Index.appState st' = Index.dashboard
         /\ Forall (fun r => Index.isUploadRequest r = false) reqs)
  /\ (forall (evs : list Index.Event) (st' : Index.State)
             (reqs : list Request),
         Index.run evs Index.init = Some (st', reqs) ->
         Index.appState st' = Index.dashboard ->
         Exists (fun ev => Index.isUploadSuccess ev = true) evs).
Proof.
  split; [|split].
  - intros ev st st' req Hstep Hne.
    apply index_step_appState in Hstep.
    destruct Hstep as [[H|(H1 & H2 & H3 & _)] _]; [contradiction | auto].
  - induction evs as [|ev rest IH]; intros st st' reqs; cbn [Index.run].
    + intros [= <- <-] Hd. split; [exact Hd | constructor].
    + destruct (Index.step ev st) as [[st1 req]|] eqn:Hstep; [|discriminate].
      destruct (Index.run rest st1) as [[st2 reqs2]|] eqn:Hrun;
        [|discriminate].
      intros [= <- <-] Hd.
      destruct (index_step_dashboard _ _ _ _ Hstep Hd) as [H1 H2].
      destruct (IH _ _ _ Hrun H1) as [IH1 IH2].
      split; [exact IH1|].
      destruct req as [r|]; [|exact IH2].
      constructor; [now apply H2 | exact IH2].
  - intros evs st' reqs Hrun Hd.
    destruct (dashboard_needs_upload_success evs _ _ _ Hrun Hd) as [H|[H|H]].
    + discriminate H.
    + now elim H.
    + exact H.
Qed.

(** Once on the dashboard, opening the quiz tab and asking for a quiz keeps
    the page on the dashboard. *)
Lemma dashboard_is_final_witness :
  Index.appState (Index.finalState askQuiz onDashboard) = Index.dashboard
  /\ Forall (fun r => Index.isUploadRequest r = false)
            (Index.requests askQuiz onDashboard).
Proof.
  apply (proj1 (proj2 dashboard_is_final) askQuiz onDashboard
           (Index.finalState askQuiz onDashboard)
           (Index.requests askQuiz onDashboard)); reflexivity.
Defined.

Example dashboard_quiz_request :
  Index.requests askQuiz onDashboard
  = [QuizTab.quizRequest (js "Medium") (Num 5)].
Proof. reflexivity. Qed.

(** C10, as the claim states it, fails: after the first upload has
    succeeded and before the timer moves the page to the dashboard, the
    upload view is still shown; another document is picked and uploaded in
    the same page session. *)
Lemma second_upload_after_success :
  option_map snd (Index.run twoUploads Index.init)
  = Some [UploadView.uploadRequest notesPdf;
          UploadView.uploadRequest slidesPdf]
  /\ option_map (fun p => Index.appState (fst p))
       (Index.run twoUploads Index.init) = Some Index.dashboard.
Proof. split; reflexivity. Qed.

(** ** The quiz operation *)

Lemma valid_question_spec (option_count : nat) (q : QuizTab.QuizQuestion) :
  Pipeline.valid_question option_count q = true ->
  In (QuizTab.answer q) (QuizTab.options q)
  /\ length (QuizTab.options q) = option_count.
Proof.
  unfold Pipeline.valid_question.
  rewrite !andb_true_iff, existsb_exists, Nat.eqb_eq.
  intros [[_ Hlen] (o & Hin & Heq)]. apply strictEq_true in Heq.
  split; [congruence | exact Hlen].
Qed.

Lemma valid_quiz_spec (option_count n : nat) (qs : list QuizTab.QuizQuestion) :
  Pipeline.valid_quiz option_count n qs = true ->
  length qs = n
  /\ Forall (fun q => In (QuizTab.answer q) (QuizTab.options q)
                      /\ length (QuizTab.options q) = option_count) qs.
Proof.
  unfold Pipeline.valid_quiz.
  rewrite andb_true_iff, Nat.eqb_eq, forallb_forall.
  intros [Hlen Hall]. split; [exact Hlen|].
  apply List.Forall_forall.
  intros q Hq. apply valid_question_spec, Hall, Hq.
Qed.

(** What the Generator returns has passed its validation. *)
Lemma generate_from_done (option_count : nat)
    (complete : nat -> option (list QuizTab.QuizQuestion)) (n fuel : nat) :
  forall (attempt : nat) (qs : list QuizTab.QuizQuestion) (calls : nat),
    Pipeline.generate_from option_count complete fuel attempt n
    = (Pipeline.Done qs, calls) ->
    Pipeline.valid_quiz option_count n qs = true.
Proof.
  induction fuel as [|fuel IH]; intros attempt qs calls;
    cbn [Pipeline.generate_from]; [discriminate|].
  destruct (complete attempt) as [qs0|].
  - destruct (Pipeline.valid_quiz option_count n qs0) eqn:Hv.
    + now intros [= <- _].
    + destruct (Pipeline.generate_from option_count complete fuel
                  (S attempt) n) as [o c] eqn:Hg.
      intros [= -> _]. eapply IH; eassumption.
  - destruct (Pipeline.generate_from option_count complete fuel
                (S attempt) n) as [o c] eqn:Hg.
    intros [= -> _]. eapply IH; eassumption.
Qed.

(** C1. Every question of a quiz that the quiz operation returns has its
    answer among its options and as many options as configured; the front
    end stores the returned list as it is. *)
Theorem returned_quiz_questions_are_well_formed :
  forall (option_count max_retries : nat)
         (complete : nat -> option (list QuizTab.QuizQuestion))
         (session : option Pipeline.Session) (difficulty : JsString)
         (num_questions : Z) (qs : list QuizTab.QuizQuestion) (calls : nat),
    Pipeline.quiz_operation option_count max_retries complete session
      difficulty num_questions = (Pipeline.Done qs, calls) ->
    Forall (fun q => In (QuizTab.answer q) (QuizTab.options q)
                     /\ length (QuizTab.options q) = option_count) qs
    /\ (forall st : QuizTab.State,
           QuizTab.quiz
             (fst (QuizTab.handleGenerateQuiz_finish
                     (Pipeline.respond (Pipeline.Done qs)) st)) = Some qs).
Proof.
  intros option_count max_retries complete session difficulty n qs calls.
  unfold Pipeline.quiz_operation, Pipeline.generate.
  destruct session as [s|]; [|discriminate].
  destruct (Pipeline.valid_quiz_params difficulty n); [|discriminate].
  intros H. apply generate_from_done in H. apply valid_quiz_spec in H.
  split; [exact (proj2 H) | reflexivity].
Qed.

Lemma returned_quiz_questions_are_well_formed_witness :
  Forall (fun q => In (QuizTab.answer q) (QuizTab.options q)
                   /\ length (QuizTab.options q) = 4)
         [goodQuestion].
Proof.
  apply (returned_quiz_questions_are_well_formed 4 2 flakyService sampleSession
           (js "Medium") 1 [goodQuestion] 3).
  reflexivity.
Defined.

Example generator_retries_then_fails :
  Pipeline.quiz_operation 4 1 flakyService sampleSession (js "Medium") 1
  = (Pipeline.Failed Pipeline.GenerationFormatError, 2).
Proof. reflexivity. Qed.

(** The front end itself checks nothing: a question whose answer is not
    among its options is stored and drawn if a response carries it. *)
Example quiz_tab_stores_the_response_unchecked :
  QuizTab.render
    (fst (QuizTab.handleGenerateQuiz_finish
            (Response true {| QuizTab.data_quiz := Some [badQuestion];
                              QuizTab.data_error := None |})
            (fst (QuizTab.handleGenerateQuiz_start QuizTab.init))))
  = QuizTab.Results [badQuestion] ∅.
Proof. reflexivity. Qed.

(** C2. A quiz request whose question count is 0 (or less) or above 20
    fails without a single call to the completion service; with a
    session and a valid difficulty, the counts 1 and 20 pass the
    validation, the outcome is the Generator's, and it is the quiz as soon
    as the service answers a well-formed one. *)
Theorem quiz_count_validated_before_generation :
  forall (option_count max_retries : nat)
         (complete : nat -> option (list QuizTab.QuizQuestion))
         (session : option Pipeline.Session) (difficulty : JsString),
    (forall n : Z,
        (n <= 0 \/ 20 < n)%Z ->
        exists e, Pipeline.quiz_operation option_count max_retries complete
                    session difficulty n = (Pipeline.Failed e, 0))
    /\ (forall (n : Z) (s : Pipeline.Session),
           (n = 1 \/ n = 20)%Z ->
           session = Some s ->
           In difficulty QuizTab.difficulties ->
           Pipeline.quiz_operation option_count max_retries complete
             session difficulty n
           = Pipeline.generate option_count max_retries complete (Z.to_nat n)
           /\ (forall qs : list QuizTab.QuizQuestion,
                  complete 0 = Some qs ->
                  Pipeline.valid_quiz option_count (Z.to_nat n) qs = true ->
                  Pipeline.quiz_operation option_count max_retries complete
                    session difficulty n = (Pipeline.Done qs, 1))).
Proof.
  intros option_count max_retries complete session difficulty. split.
  - intros n Hn. unfold Pipeline.quiz_operation.
    destruct session as [s|]; [|eauto].
    assert (Hv : Pipeline.valid_quiz_params difficulty n = false).
    { unfold Pipeline.valid_quiz_params.
      destruct (existsb _ _); cbn; [|reflexivity].
      destruct (Z.leb_spec 1 n); cbn; [|reflexivity].
      apply Z.leb_gt. lia. }
    rewrite Hv. eauto.
  - intros n s Hn -> Hd. unfold Pipeline.quiz_operation.
    assert (Hv : Pipeline.valid_quiz_params difficulty n = true).
    { unfold Pipeline.valid_quiz_params.
      rewrite !andb_true_iff, existsb_exists, Z.leb_le, Z.leb_le.
      split; [split|]; [|lia|lia].
      exists difficulty. split; [exact Hd | now apply strictEq_true]. }
    rewrite Hv. split; [reflexivity|].
    intros qs Hc Hq. unfold Pipeline.generate.
    cbn [Pipeline.generate_from]. now rewrite Hc, Hq.
Qed.

Lemma quiz_count_validated_before_generation_witness :
  (exists e, Pipeline.quiz_operation 4 2 (steadyService 21) sampleSession
               (js "Hard") 21 = (Pipeline.Failed e, 0))
  /\ Pipeline.quiz_operation 4 2 (steadyService 20) sampleSession
       (js "Hard") 20 = (Pipeline.Done (repeat goodQuestion 20), 1).
Proof.
  split.
  - apply (proj1 (quiz_count_validated_before_generation 4 2 (steadyService 21)
                    sampleSession (js "Hard")) 21%Z).
    right. lia.
  - refine (proj2 (proj2 (quiz_count_validated_before_generation 4 2
                            (steadyService 20) sampleSession (js "Hard"))
                     20%Z {| Pipeline.chunks :=
                               [js "Photosynthesis releases oxygen."] |}
                     _ _ _) (repeat goodQuestion 20) _ _).
    + right. reflexivity.
    + reflexivity.
    + cbn. auto.
    + reflexivity.
    + reflexivity.
Defined.

Example quiz_count_boundaries :
  map (fun n => fst (Pipeline.quiz_operation 4 2 (steadyService (Z.to_nat n))
                       sampleSession (js "Easy") n))
      [0; 1; 20; 21]%Z
  = [Pipeline.Failed Pipeline.InvalidTaskParams;
     Pipeline.Done (repeat goodQuestion 1);
     Pipeline.Done (repeat goodQuestion 20);
     Pipeline.Failed Pipeline.InvalidTaskParams].
Proof. reflexivity. Qed.

(** The front end does not check the range itself: a count of 25 typed
    into the input is stored and sent. *)
Example quiz_tab_sends_count_above_20 :
  snd (QuizTab.run [QuizTab.ChangeNumQuestions (js "25"); QuizTab.ClickGenerate]
         QuizTab.init)
  = [ {| url := js "http://localhost:5000/quiz";
         method := POST;
         headers := [(js "Content-Type", js "application/json")];
         body := Some (JsonBody [(js "difficulty", JStr (js "Medium"));
                                 (js "num_questions", JNum 25)]) |} ].
Proof. reflexivity. Qed.

(** * Further properties *)

(** ** The mounted tab *)

Lemma content_init_ok (id : JsString) :
  DashboardView.mount id <> DashboardView.NoContent ->
  contentOk (DashboardView.mount id).
Proof.
  unfold DashboardView.mount.
  destruct (strictEq id (js "summary")); [intros _; reflexivity|].
  destruct (strictEq id (js "explain")); [intros _; discriminate|].
  destruct (strictEq id (js "quiz")); [intros _|intros H; now elim H].
  cbn. repeat split; try discriminate; auto.
  all: intros i Hi; exfalso; revert Hi; apply not_elem_of_empty.
Qed.

Lemma summary_step_ok (e : SummaryTab.Event) (s : SummaryTab.State) (p : nat) :
  SummaryTab.enabled p e s = true ->
  p = pendingOf (SummaryTab.isLoading s) ->
  DashboardView.pendingAfter DashboardView.summaryDone e p
    (snd (SummaryTab.step e s))
  = pendingOf (SummaryTab.isLoading (fst (SummaryTab.step e s))).
Proof.
  intros He ->. destruct e as [|r]; cbn in *.
  - unfold SummaryTab.buttonDisabled in He.
    destruct (SummaryTab.isLoading s); [discriminate|reflexivity].
  - destruct (SummaryTab.isLoading s); [|discriminate].
    destruct r as [|[] data]; reflexivity.
Qed.

Lemma explain_step_ok (e : ExplainTab.Event) (s : ExplainTab.State) (p : nat) :
  (ExplainTab.isLoading s = true -> p <> O) ->
  ExplainTab.isLoading (fst (ExplainTab.step e s)) = true ->
  DashboardView.pendingAfter DashboardView.explainDone e p
    (snd (ExplainTab.step e s)) <> O.
Proof.
  intros Hs.
  assert (Hstart : ExplainTab.isLoading (fst (ExplainTab.handleExplain_start s))
                   = true ->
                   p + match snd (ExplainTab.handleExplain_start s) with
                       | Some _ => 1 | None => 0 end <> O).
  { unfold ExplainTab.handleExplain_start.
    destruct (negb (truthy (trim (ExplainTab.conceptQuery s)))); cbn.
    - intros H. specialize (Hs H). lia.
    - lia. }
  destruct e as [value| |key shiftKey|r];
    unfold DashboardView.pendingAfter; cbn [DashboardView.explainDone].
  - cbn. intros H. specialize (Hs H). lia.
  - exact Hstart.
  - cbn [ExplainTab.step]. unfold ExplainTab.handleKeyPress.
    destruct (strictEq key (js "Enter") && negb shiftKey); [exact Hstart|].
    cbn. intros H. specialize (Hs H). lia.
  - cbn. discriminate.
Qed.

Lemma quiz_step_ok (e : QuizTab.Event) (s : QuizTab.State) (p : nat) :
  QuizTab.enabled p e s = true ->
  contentOk (DashboardView.QuizC s p) ->
  contentOk (DashboardView.QuizC (fst (QuizTab.step e s))
               (DashboardView.pendingAfter DashboardView.quizDone e p
                  (snd (QuizTab.step e s)))).
Proof.
  intros He (Hp & Hload & Hvis & Hd & Hn).
  pose proof (quiz_step_difficulty e s Hd) as Hd'.
  pose proof (quiz_step_count e s Hn) as Hn'.
  cbn [contentOk]. split; [|split; [|split; [|split; assumption]]].
  - subst p. destruct e as [o|value| |r|i];
      unfold DashboardView.pendingAfter; cbn in *;
      try (destruct (QuizTab.isLoading s); reflexivity).
    + unfold QuizTab.buttonDisabled in He.
      destruct (QuizTab.isLoading s); [discriminate|reflexivity].
    + destruct (QuizTab.isLoading s); [|discriminate].
      destruct r as [|[] data]; reflexivity.
  - destruct e as [o|value| |r|i]; cbn; auto.
    + destruct r as [|[] data]; cbn; discriminate.
    + unfold QuizTab.enabled, QuizTab.render in He.
      destruct (QuizTab.isLoading s); [discriminate|]. discriminate.
  - destruct e as [o|value| |r|i]; cbn; auto.
    + intros i Hi. exfalso. revert Hi. apply not_elem_of_empty.
    + assert (Hl : QuizTab.isLoading s = true).
      { cbn in He. subst p. destruct (QuizTab.isLoading s);
          [reflexivity | discriminate]. }
      destruct (Hload Hl) as [_ Hv].
      destruct r as [|[] data]; cbn; rewrite Hv;
        intros i Hi; exfalso; revert Hi; apply not_elem_of_empty.
    + unfold QuizTab.enabled, QuizTab.render in He.
      destruct (QuizTab.isLoading s); [discriminate|].
      destruct (QuizTab.quiz s) as [[|q qs]|] eqn:Hq; try discriminate.
      apply Nat.ltb_lt in He.
      intros j Hj. destruct (decide (j = i)) as [->|Hne]; [eauto|].
      apply Hvis. cbn in Hj.
      destruct (decide (i ∈ QuizTab.visibleAnswers s)).
      * apply elem_of_difference in Hj. tauto.
      * apply elem_of_union in Hj. destruct Hj as [Hj|Hj]; [exact Hj|].
        apply elem_of_singleton in Hj. contradiction.
Qed.

Lemma dashboard_step_ok (e : DashboardView.Event)
    (d d1 : DashboardView.State) (req : option Request) :
  DashboardView.step e d = Some (d1, req) ->
  contentOk (DashboardView.content d) ->
  tabMatches d ->
  contentOk (DashboardView.content d1) /\ tabMatches d1.
Proof.
  unfold DashboardView.step, tabMatches.
  destruct e as [i|ev|ev|ev].
  - destruct (DashboardView.tabs !! i) as [[id label]|] eqn:Hi;
      [|discriminate].
    intros [= <- _] Hc Ht. unfold DashboardView.setActiveTab.
    destruct (strictEq id (DashboardView.activeTab d)); [auto|].
    cbn [DashboardView.content DashboardView.activeTab].
    destruct i as [|[|[|i]]]; [| | |discriminate Hi];
      injection Hi as <- _; (split; [apply content_init_ok; discriminate
                                    | reflexivity]).
  - destruct (DashboardView.content d) as [s p|s p|s p|]; try discriminate.
    destruct (SummaryTab.enabled p ev s) eqn:He; [|discriminate].
    pose proof (summary_step_ok ev s p He) as H.
    destruct (SummaryTab.step ev s) as [s1 rq]. cbn [fst snd] in H.
    intros [= <- _] Hc Ht. cbn. auto.
  - destruct (DashboardView.content d) as [s p|s p|s p|]; try discriminate.
    destruct (ExplainTab.enabled p ev s) eqn:He; [|discriminate].
    pose proof (explain_step_ok ev s p) as H.
    destruct (ExplainTab.step ev s) as [s1 rq]. cbn [fst snd] in H.
    intros [= <- _] Hc Ht. cbn. auto.
  - destruct (DashboardView.content d) as [s p|s p|s p|] eqn:Hcd;
      try discriminate.
    destruct (QuizTab.enabled p ev s) eqn:He; [|discriminate].
    pose proof (quiz_step_ok ev s p He) as H.
    destruct (QuizTab.step ev s) as [s1 rq]. cbn [fst snd] in H.
    intros [= <- _] Hc Ht. cbn [DashboardView.content DashboardView.activeTab].
    auto.
Qed.

Lemma dashboard_step_known (e : DashboardView.Event)
    (d d1 : DashboardView.State) (req : Request) :
  DashboardView.step e d = Some (d1, Some req) ->
  contentOk (DashboardView.content d) ->
  knownRequest req.
Proof.
  unfold DashboardView.step, knownRequest.
  destruct e as [i|ev|ev|ev].
  - destruct (DashboardView.tabs !! i) as [[id label]|]; discriminate.
  - destruct (DashboardView.content d) as [s p|s p|s p|]; try discriminate.
    destruct (SummaryTab.enabled p ev s); [|discriminate].
    destruct ev; cbn; intros [= _ <-] _. auto.
  - destruct (DashboardView.content d) as [s p|s p|s p|]; try discriminate.
    destruct (ExplainTab.enabled p ev s); [|discriminate].
    destruct (ExplainTab.step ev s) as [s1 rq] eqn:Hstep.
    intros [= _ ->] _. apply explain_step_request in Hstep. auto.
  - destruct (DashboardView.content d) as [s p|s p|s p|]; try discriminate.
    destruct (QuizTab.enabled p ev s); [|discriminate].
    pose proof (quiz_step_request ev s) as Hreq.
    destruct (QuizTab.step ev s) as [s1 rq]. cbn [snd] in Hreq.
    intros [= _ ->] (_ & _ & _ & Hd & Hn).
    rewrite (Hreq req eq_refl). right; right; right.
    exists (QuizTab.quizDifficulty s), (QuizTab.numQuestions s). auto.
Qed.

(** ** The page *)

Lemma page_init_ok : pageOk Index.init.
Proof.
  unfold pageOk. cbn. repeat split; auto.
Qed.

Lemma upload_ui_step_pending (e : UploadView.Event) (u : UploadView.State)
    (p : nat) :
  UploadView.enabled p e u = true ->
  (forall r, e <> UploadView.FetchDone r) ->
  p = pendingOf (UploadView.isUploading u) ->
  match snd (fst (UploadView.step e u)) with
  | Some _ => S p
  | None => p
  end = pendingOf (UploadView.isUploading (fst (fst (UploadView.step e u)))).
Proof.
  intros He Hne ->.
  destruct e as [files| | |files| |r]; cbn [UploadView.step fst snd].
  - destruct files as [|file rest]; cbn; [reflexivity|].
    unfold UploadView.handleFileSelect.
    now destruct (strictEq (file_type file) (js "application/pdf")).
  - reflexivity.
  - reflexivity.
  - destruct files as [[|file rest]|]; cbn; try reflexivity.
    unfold UploadView.handleFileSelect.
    now destruct (strictEq (file_type file) (js "application/pdf")).
  - cbn in He. unfold UploadView.buttonDisabled in He.
    unfold UploadView.handleUpload_start.
    destruct (UploadView.selectedFile u); [|discriminate].
    destruct (UploadView.isUploading u); [discriminate|reflexivity].
  - now elim (Hne r).
Qed.

Lemma page_step_ok (ev : Index.Event) (st st' : Index.State)
    (req : option Request) :
  Index.step ev st = Some (st', req) ->
  pageOk st ->
  pageOk st' /\ (forall r, req = Some r -> knownRequest r).
Proof.
  intros Hstep (Hc & Ht & Hf & Hp & Hu). revert Hstep.
  assert (Hui : forall e : UploadView.Event,
             (forall r, e <> UploadView.FetchDone r) ->
             match Index.appState st with
             | Index.upload =>
                 if UploadView.enabled (Index.uploadPending st) e
                      (Index.uploadView st)
                 then
                   let '(u1, req0, _) :=
                     UploadView.step e (Index.uploadView st) in
                   Some ({| Index.appState := Index.appState st;
                            Index.uploadView := u1;
                            Index.dashboardView := Index.dashboardView st;
                            Index.uploadPending :=
                              match req0 with
                              | Some _ => S (Index.uploadPending st)
                              | None => Index.uploadPending st
                              end;
                            Index.timers := Index.timers st |}, req0)
                 else None
             | Index.dashboard => None
             end = Some (st', req) ->
             pageOk st' /\ (forall r, req = Some r -> knownRequest r)).
  { intros e Hne.
    destruct (Index.appState st) eqn:Ha; [|discriminate].
    destruct (UploadView.enabled (Index.uploadPending st) e
                (Index.uploadView st)) eqn:He; [|discriminate].
    pose proof (upload_step_pdf e (Index.uploadView st) Hf) as [Hf1 Hr1].
    pose proof (upload_ui_step_pending e _ _ He Hne (Hu eq_refl)) as Hp1.
    destruct (UploadView.step e (Index.uploadView st)) as [[u1 rq] t].
    cbn [fst snd] in *. intros [= <- <-].
    split.
    - unfold pageOk. cbn. repeat split; auto.
      rewrite Hp1. destruct (UploadView.isUploading u1); cbn; lia.
    - intros r Hr. left. now apply Hr1. }
  destruct ev as [[files| | |files| |r]| |e]; cbn [Index.step].
  1-5: apply Hui; discriminate.
  - destruct (Index.uploadPending st) as [|pending] eqn:Hpe; [discriminate|].
    assert (pending = O) by lia. subst pending.
    destruct r as [|[] data]; cbn; intros [= <- <-];
      (split; [|intros ? [=]]); unfold pageOk; cbn;
      repeat split; auto; destruct (Index.appState st); auto; discriminate.
  - destruct (Index.timers st); [discriminate|].
    intros [= <- <-]. split; [|intros ? [=]].
    unfold pageOk. cbn. destruct (Index.appState st) eqn:Ha.
    + repeat split; auto; discriminate.
    + repeat split; auto; discriminate.
  - destruct (Index.appState st) eqn:Ha; [discriminate|].
    destruct (DashboardView.renderThrows (Index.dashboardView st));
      [discriminate|].
    destruct (DashboardView.step e (Index.dashboardView st))
      as [[d1 rq]|] eqn:Hs; [|discriminate].
    intros [= <- <-].
    destruct (dashboard_step_ok _ _ _ _ Hs Hc Ht) as [Hc1 Ht1].
    split.
    + unfold pageOk. cbn. repeat split; auto; rewrite Ha; discriminate.
    + intros r ->. eapply dashboard_step_known; eassumption.
Qed.

Lemma page_run_ok (evs : list Index.Event) :
  forall (st st' : Index.State) (reqs : list Request),
    Index.run evs st = Some (st', reqs) ->
    pageOk st ->
    pageOk st' /\ Forall knownRequest reqs.
Proof.
  induction evs as [|ev rest IH]; intros st st' reqs; cbn [Index.run].
  - intros [= <- <-] H. split; [exact H | constructor].
  - destruct (Index.step ev st) as [[st1 req]|] eqn:Hstep; [|discriminate].
    destruct (Index.run rest st1) as [[st2 reqs2]|] eqn:Hrun; [|discriminate].
    intros [= <- <-] Hok.
    destruct (page_step_ok _ _ _ _ Hstep Hok) as [H1 H2].
    destruct (IH _ _ _ Hrun H1) as [IH1 IH2].
    split; [exact IH1|].
    destruct req as [r|]; [|exact IH2].
    constructor; [now apply H2 | exact IH2].
Qed.

(** ** Failures *)

(** C3, as the code has it. A failure of an upload, summary or explain
    request that arrives while the view that issued it is still mounted
    puts a non-empty message on the screen and clears the loading flag; a
    failure of an upload that arrives after the page has moved to the
    dashboard changes nothing on the screen.  A failed quiz request never
    leaves a partial quiz: the list of questions is the empty list set when
    the request started.  Upload shows the server's error text when it is
    not empty and a fixed text otherwise; summary and explain show one
    fixed text for every failure the server reports and another when the
    request itself fails, whatever the server says.  The first eight parts
    are about the handlers on any state of their component, the last five
    about the page. *)
Theorem failures_are_reported :
  (forall (data : UploadView.Data) (st : UploadView.State),
      let st' := fst (UploadView.handleUpload_finish (Response false data) st) in
      UploadView.statusMessage st'
      = orElse (UploadView.data_error data)
               (js "Upload failed. Please try again.")
      /\ UploadView.statusMessage st' <> []
      /\ UploadView.renderStatus st'
         = UploadView.ErrorBanner (UploadView.statusMessage st')
      /\ UploadView.isUploading st' = false
      /\ snd (UploadView.handleUpload_finish (Response false data) st) = false)
  /\ (forall st : UploadView.State,
         let st' := fst (UploadView.handleUpload_finish Rejected st) in
         UploadView.renderStatus st'
         = UploadView.ErrorBanner
             (js "Network error. Please check if the server is running.")
         /\ UploadView.isUploading st' = false
         /\ snd (UploadView.handleUpload_finish Rejected st) = false)
  /\ (forall (data : SummaryTab.Data) (st : SummaryTab.State),
         SummaryTab.render
           (SummaryTab.handleGenerateSummary_finish (Response false data) st)
         = SummaryTab.Text
             (Some (js "Error generating summary. Please try again.")))
  /\ (forall st : SummaryTab.State,
         SummaryTab.render (SummaryTab.handleGenerateSummary_finish Rejected st)
         = SummaryTab.Text
             (Some (js "Network error. Please check if the server is running.")))
  /\ (forall (data : ExplainTab.Data) (st : ExplainTab.State),
         ExplainTab.render
           (ExplainTab.handleExplain_finish (Response false data) st)
         = ExplainTab.Text
             (Some (js "Error generating explanation. Please try again.")))
  /\ (forall st : ExplainTab.State,
         ExplainTab.render (ExplainTab.handleExplain_finish Rejected st)
         = ExplainTab.Text
             (Some (js "Network error. Please check if the server is running.")))
  /\ (forall (data : QuizTab.Data) (st : QuizTab.State),
         let st' := fst (QuizTab.handleGenerateQuiz_finish (Response false data)
                           (fst (QuizTab.handleGenerateQuiz_start st))) in
         QuizTab.quiz st' = Some [] /\ QuizTab.isLoading st' = false)
  /\ (forall st : QuizTab.State,
         let st' := fst (QuizTab.handleGenerateQuiz_finish Rejected
                           (fst (QuizTab.handleGenerateQuiz_start st))) in
         QuizTab.quiz st' = Some [] /\ QuizTab.isLoading st' = false)
  /\ (forall (r : FetchResult UploadView.Data) (st : Index.State),
         is_failure r = true ->
         Index.appState st = Index.upload ->
         Index.uploadPending st <> O ->
         exists st' u',
           Index.step (Index.UploadEv (UploadView.FetchDone r)) st
           = Some (st', None)
           /\ Index.screen st' = Index.UploadScreen u'
           /\ UploadView.renderStatus u'
              = UploadView.ErrorBanner (UploadView.statusMessage u')
           /\ UploadView.statusMessage u' <> []
           /\ UploadView.isUploading u' = false)
  /\ (forall (r : FetchResult UploadView.Data) (st : Index.State),
         is_failure r = true ->
         Index.appState st = Index.dashboard ->
         Index.uploadPending st <> O ->
         exists st',
           Index.step (Index.UploadEv (UploadView.FetchDone r)) st
           = Some (st', None)
           /\ Index.screen st' = Index.screen st)
  /\ (forall (r : FetchResult SummaryTab.Data) (st : Index.State)
             (s : SummaryTab.State) (p : nat),
         is_failure r = true ->
         Index.appState st = Index.dashboard ->
         DashboardView.content (Index.dashboardView st)
         = DashboardView.SummaryC s p ->
         p <> O ->
         exists st' s',
           Index.step
             (Index.DashboardEv
                (DashboardView.SummaryEv (SummaryTab.FetchDone r))) st
           = Some (st', None)
           /\ Index.screen st' = Index.DashboardScreen (Index.dashboardView st')
           /\ DashboardView.content (Index.dashboardView st')
              = DashboardView.SummaryC s' (Nat.pred p + 0)
           /\ SummaryTab.isLoading s' = false
           /\ SummaryTab.render s'
              = SummaryTab.Text
                  (Some match r with
                        | Rejected =>
                            js "Network error. Please check if the server is running."
                        | Response _ _ =>
                            js "Error generating summary. Please try again."
                        end))
  /\ (forall (r : FetchResult ExplainTab.Data) (st : Index.State)
             (s : ExplainTab.State) (p : nat),
         is_failure r = true ->
         Index.appState st = Index.dashboard ->
         DashboardView.content (Index.dashboardView st)
         = DashboardView.ExplainC s p ->
         p <> O ->
         exists st' s',
           Index.step
             (Index.DashboardEv
                (DashboardView.ExplainEv (ExplainTab.FetchDone r))) st
           = Some (st', None)
           /\ Index.screen st' = Index.DashboardScreen (Index.dashboardView st')
           /\ DashboardView.content (Index.dashboardView st')
              = DashboardView.ExplainC s' (Nat.pred p + 0)
           /\ ExplainTab.isLoading s' = false
           /\ ExplainTab.render s'
              = ExplainTab.Text
                  (Some match r with
                        | Rejected =>
                            js "Network error. Please check if the server is running."
                        | Response _ _ =>
                            js "Error generating explanation. Please try again."
                        end))
  /\ (forall (evs : list Index.Event) (st : Index.State)
             (reqs : list Request) (r : FetchResult QuizTab.Data)
             (s : QuizTab.State) (p : nat),
         Index.run evs Index.init = Some (st, reqs) ->
         is_failure r = true ->
         Index.appState st = Index.dashboard ->
         DashboardView.content (Index.dashboardView st)
         = DashboardView.QuizC s p ->
         p <> O ->
         exists st' s',
           Index.step
             (Index.DashboardEv (DashboardView.QuizEv (QuizTab.FetchDone r))) st
           = Some (st', None)
           /\ DashboardView.content (Index.dashboardView st')
              = DashboardView.QuizC s' 0
           /\ QuizTab.quiz s' = Some []
           /\ QuizTab.isLoading s' = false).
Proof.
  assert (Hne : forall a, orElse a (js "Upload failed. Please try again.") <> [])
    by (intros a; apply orElse_nonempty; discriminate).
  assert (Hbanner : forall m : JsString, m <> [] -> truthy m = true)
    by (intros [|c m] H; [now elim H | reflexivity]).
  assert (Hup : forall (r : FetchResult UploadView.Data)
                       (u : UploadView.State),
             is_failure r = true ->
             let u' := fst (UploadView.handleUpload_finish r u) in
             UploadView.renderStatus u'
             = UploadView.ErrorBanner (UploadView.statusMessage u')
             /\ UploadView.statusMessage u' <> []
             /\ UploadView.isUploading u' = false).
  { intros r u Hr. destruct r as [|[] data]; try discriminate Hr; cbn.
    - repeat apply conj; try reflexivity. discriminate.
    - repeat apply conj; try reflexivity; [|apply Hne].
      unfold UploadView.renderStatus. cbn. now rewrite Hbanner by apply Hne. }
  split; [|split; [|split; [|split; [|split; [|split; [|split; [|split;
    [|split; [|split; [|split; [|split]]]]]]]]]]].
  - intros data st st'. subst st'. cbn.
    repeat apply conj; try reflexivity; [apply Hne|].
    unfold UploadView.renderStatus. cbn. now rewrite Hbanner by apply Hne.
  - intros st st'. subst st'. repeat apply conj; reflexivity.
  - reflexivity.
  - reflexivity.
  - reflexivity.
  - reflexivity.
  - intros data st st'. subst st'. split; reflexivity.
  - intros st st'. subst st'. split; reflexivity.
  - intros r st Hr Ha Hp. cbn [Index.step].
    destruct (Index.uploadPending st) as [|pending]; [now elim Hp|].
    pose proof (Hup r (Index.uploadView st) Hr) as Hu.
    destruct (UploadView.handleUpload_finish r (Index.uploadView st))
      as [u1 t]. cbn [fst] in Hu.
    do 2 eexists. split; [reflexivity|].
    unfold Index.screen. cbn [Index.appState Index.uploadView].
    rewrite Ha. split; [reflexivity | exact Hu].
  - intros r st Hr Ha Hp. cbn [Index.step].
    destruct (Index.uploadPending st) as [|pending]; [now elim Hp|].
    destruct (UploadView.handleUpload_finish r (Index.uploadView st))
      as [u1 t].
    eexists. split; [reflexivity|].
    unfold Index.screen. cbn [Index.appState Index.dashboardView].
    now rewrite Ha.
  - intros r st s p Hr Ha Hc Hp. cbn [Index.step]. rewrite Ha.
    unfold DashboardView.renderThrows, DashboardView.step, Index.screen.
    rewrite Hc. cbn [SummaryTab.enabled].
    destruct p as [|p]; [now elim Hp|]. cbn [Nat.eqb negb].
    destruct r as [|[] data]; try discriminate Hr; cbn;
      do 2 eexists; repeat apply conj; reflexivity.
  - intros r st s p Hr Ha Hc Hp. cbn [Index.step]. rewrite Ha.
    unfold DashboardView.renderThrows, DashboardView.step, Index.screen.
    rewrite Hc. cbn [ExplainTab.enabled].
    destruct p as [|p]; [now elim Hp|]. cbn [Nat.eqb negb].
    destruct r as [|[] data]; try discriminate Hr; cbn;
      do 2 eexists; repeat apply conj; reflexivity.
  - intros evs st reqs r s p Hrun Hr Ha Hc Hp.
    destruct (page_run_ok evs _ _ _ Hrun page_init_ok) as [(Hok & _) _].
    rewrite Hc in Hok. destruct Hok as (Hpe & Hl & _).
    destruct (QuizTab.isLoading s) eqn:El; [|now elim Hp].
    destruct (Hl eq_refl) as [Hq _]. cbn in Hpe. subst p.
    cbn [Index.step]. rewrite Ha.
    unfold DashboardView.renderThrows, DashboardView.step.
    rewrite Hc. unfold QuizTab.render. rewrite El.
    cbn [QuizTab.enabled Nat.eqb negb].
    destruct r as [|[] data]; try discriminate Hr; cbn;
      do 2 eexists; repeat apply conj; try reflexivity; exact Hq.
Qed.

Lemma failures_are_reported_witness :
  (exists st' u',
      Index.step (Index.UploadEv (UploadView.FetchDone Rejected))
        (Index.finalState (firstn 2 oneUpload) Index.init) = Some (st', None)
      /\ Index.screen st' = Index.UploadScreen u'
      /\ UploadView.renderStatus u'
         = UploadView.ErrorBanner (UploadView.statusMessage u')
      /\ UploadView.statusMessage u' <> []
      /\ UploadView.isUploading u' = false)
  /\ (exists st',
         Index.step (Index.UploadEv (UploadView.FetchDone Rejected))
           (Index.finalState twoUploads Index.init) = Some (st', None)
         /\ Index.screen st'
            = Index.screen (Index.finalState twoUploads Index.init))
  /\ (exists st' s',
         Index.step
           (Index.DashboardEv
              (DashboardView.SummaryEv (SummaryTab.FetchDone Rejected)))
           (Index.finalState summaryAsked Index.init) = Some (st', None)
         /\ Index.screen st' = Index.DashboardScreen (Index.dashboardView st')
         /\ DashboardView.content (Index.dashboardView st')
            = DashboardView.SummaryC s' 0
         /\ SummaryTab.isLoading s' = false
         /\ SummaryTab.render s'
            = SummaryTab.Text
                (Some (js "Network error. Please check if the server is running.")))
  /\ (exists st' s',
         Index.step
           (Index.DashboardEv
              (DashboardView.ExplainEv (ExplainTab.FetchDone Rejected)))
           (Index.finalState explainAsked Index.init) = Some (st', None)
         /\ Index.screen st' = Index.DashboardScreen (Index.dashboardView st')
         /\ DashboardView.content (Index.dashboardView st')
            = DashboardView.ExplainC s' 0
         /\ ExplainTab.isLoading s' = false
         /\ ExplainTab.render s'
            = ExplainTab.Text
                (Some (js "Network error. Please check if the server is running.")))
  /\ (exists st' s',
         Index.step
           (Index.DashboardEv
              (DashboardView.QuizEv (QuizTab.FetchDone Rejected)))
           (Index.finalState (oneUpload ++ askQuiz) Index.init)
         = Some (st', None)
         /\ DashboardView.content (Index.dashboardView st')
            = DashboardView.QuizC s' 0
         /\ QuizTab.quiz s' = Some []
         /\ QuizTab.isLoading s' = false).
Proof.
  split; [|split; [|split; [|split]]].
  - apply (proj1 (proj2 (proj2 (proj2 (proj2 (proj2 (proj2 (proj2 (proj2 (failures_are_reported))))))))) Rejected
             (Index.finalState (firstn 2 oneUpload) Index.init));
      [reflexivity | reflexivity | discriminate].
  - apply (proj1 (proj2 (proj2 (proj2 (proj2 (proj2 (proj2 (proj2 (proj2 (proj2 (failures_are_reported)))))))))) Rejected
             (Index.finalState twoUploads Index.init));
      [reflexivity | reflexivity | discriminate].
  - apply (proj1 (proj2 (proj2 (proj2 (proj2 (proj2 (proj2 (proj2 (proj2 (proj2 (proj2 (failures_are_reported))))))))))) Rejected
             (Index.finalState summaryAsked Index.init)
             (fst (SummaryTab.handleGenerateSummary_start SummaryTab.init)) 1);
      [reflexivity | reflexivity | reflexivity | discriminate].
  - apply (proj1 (proj2 (proj2 (proj2 (proj2 (proj2 (proj2 (proj2 (proj2 (proj2 (proj2 (proj2 (failures_are_reported)))))))))))) Rejected
             (Index.finalState explainAsked Index.init)
             askingOxygen 1);
      [reflexivity | reflexivity | reflexivity | discriminate].
  - apply (proj2 (proj2 (proj2 (proj2 (proj2 (proj2 (proj2 (proj2 (proj2 (proj2 (proj2 (proj2 (failures_are_reported))))))))))))
             (oneUpload ++ askQuiz)
             (Index.finalState (oneUpload ++ askQuiz) Index.init)
             (Index.requests (oneUpload ++ askQuiz) Index.init) Rejected
             (fst (QuizTab.handleGenerateQuiz_start QuizTab.init)) 1);
      [reflexivity | reflexivity | reflexivity | reflexivity | discriminate].
Defined.

(** C3, as the claim states it, fails.  The summary tab answers "no
    document loaded" and "temporary service issue" with the same text, so
    the kind of failure cannot be told from the screen; a failed quiz
    request leaves the screen as it was before any quiz was asked for,
    the error going to the console only; and the failure of an upload that
    is still pending when the page moves to the dashboard leaves the
    screen as it was, with no message at all. *)
Lemma failure_kind_not_shown :
  SummaryTab.render
    (SummaryTab.handleGenerateSummary_finish
       (Response false {| SummaryTab.data_summary := None;
                          SummaryTab.data_error := noDocumentError |})
       (fst (SummaryTab.handleGenerateSummary_start SummaryTab.init)))
  = SummaryTab.render
      (SummaryTab.handleGenerateSummary_finish
         (Response false {| SummaryTab.data_summary := None;
                            SummaryTab.data_error := serviceError |})
         (fst (SummaryTab.handleGenerateSummary_start SummaryTab.init)))
  /\ noDocumentError <> serviceError
  /\ QuizTab.render
       (fst (QuizTab.handleGenerateQuiz_finish
               (Response false {| QuizTab.data_quiz := None;
                                  QuizTab.data_error := noDocumentError |})
               (fst (QuizTab.handleGenerateQuiz_start QuizTab.init))))
     = QuizTab.render QuizTab.init
  /\ snd (QuizTab.handleGenerateQuiz_finish
            (Response false {| QuizTab.data_quiz := None;
                               QuizTab.data_error := noDocumentError |})
            (fst (QuizTab.handleGenerateQuiz_start QuizTab.init)))
     = Some (QuizTab.ErrorGeneratingQuiz noDocumentError)
  /\ Index.screen (Index.finalState lateFailure Index.init)
     = Index.screen (Index.finalState twoUploads Index.init)
  /\ Index.screen (Index.finalState lateFailure Index.init)
     = Index.DashboardScreen DashboardView.init
  /\ option_map snd (Index.run lateFailure Index.init)
     = Some [UploadView.uploadRequest notesPdf;
             UploadView.uploadRequest slidesPdf].
Proof. repeat apply conj; try reflexivity. discriminate. Qed.

(** X1. Every request the page ever issues is one of four: the upload of
    a PDF as a one-entry form, the bare GET of the summary, an explain
    request with a question that is not blank, or the quiz request built
    from a difficulty of the select and a stored count that is neither 0
    nor NaN.  (What [num_questions] then carries is [parseInt] of the text
    of that count: the count itself when it is a safe integer, see
    [quiz_request_carries_count] and [count_beyond_safe_integers].) *)
Theorem page_requests_are_known :
  forall (evs : list Index.Event) (st' : Index.State) (reqs : list Request),
    Index.run evs Index.init = Some (st', reqs) ->
    Forall knownRequest reqs.
Proof.
  intros evs st' reqs H.
  exact (proj2 (page_run_ok evs _ _ _ H page_init_ok)).
Qed.

Lemma page_requests_are_known_witness :
  Forall knownRequest (Index.requests (oneUpload ++ askQuiz) Index.init)
  /\ length (Index.requests (oneUpload ++ askQuiz) Index.init) = 2.
Proof.
  split; [|reflexivity].
  apply (page_requests_are_known (oneUpload ++ askQuiz)
           (Index.finalState (oneUpload ++ askQuiz) Index.init)).
  reflexivity.
Defined.

(** X2. Upload, summary and quiz have at most one request in flight: in
    every state the page can reach, the number of pending uploads is at
    most one and, while the upload view is shown, it is one exactly when
    [isUploading] is set; the mounted summary or quiz tab has one request
    of its own pending exactly when its [isLoading] is set and none
    otherwise (a request of a tab that was left is no longer counted: its
    response updates nothing). *)
Theorem one_request_in_flight :
  forall (evs : list Index.Event) (st' : Index.State) (reqs : list Request),
    Index.run evs Index.init = Some (st', reqs) ->
    Index.uploadPending st' <= 1
    /\ (Index.appState st' = Index.upload ->
        Index.uploadPending st'
        = pendingOf (UploadView.isUploading (Index.uploadView st')))
    /\ (forall s p,
           DashboardView.content (Index.dashboardView st')
           = DashboardView.SummaryC s p ->
           p = pendingOf (SummaryTab.isLoading s))
    /\ (forall s p,
           DashboardView.content (Index.dashboardView st')
           = DashboardView.QuizC s p ->
           p = pendingOf (QuizTab.isLoading s)).
Proof.
  intros evs st' reqs H.
  destruct (page_run_ok evs _ _ _ H page_init_ok)
    as [(Hc & _ & _ & Hp & Hu) _].
  repeat split; auto.
  - intros s p E. rewrite E in Hc. exact Hc.
  - intros s p E. rewrite E in Hc. exact (proj1 Hc).
Qed.

Lemma one_request_in_flight_witness :
  Index.uploadPending (Index.finalState twoUploads Index.init) <= 1.
Proof.
  apply (one_request_in_flight twoUploads
           (Index.finalState twoUploads Index.init)
           (Index.requests twoUploads Index.init)).
  reflexivity.
Defined.

(** X3. In every state the page can reach, an answer is revealed only for
    a question that is drawn: each index in [visibleAnswers] is below the
    length of the quiz list, and while a quiz is loading the list is empty
    and no answer is revealed. *)
Theorem revealed_answers_are_drawn :
  forall (evs : list Index.Event) (st' : Index.State) (reqs : list Request)
         (s : QuizTab.State) (p : nat),
    Index.run evs Index.init = Some (st', reqs) ->
    DashboardView.content (Index.dashboardView st') = DashboardView.QuizC s p ->
    (forall i : nat, i ∈ QuizTab.visibleAnswers s ->
        exists qs, QuizTab.quiz s = Some qs /\ i < length qs)
    /\ (QuizTab.isLoading s = true ->
        QuizTab.quiz s = Some [] /\ QuizTab.visibleAnswers s = ∅).
Proof.
  intros evs st' reqs s p H E.
  destruct (page_run_ok evs _ _ _ H page_init_ok) as [(Hc & _) _].
  rewrite E in Hc. destruct Hc as (_ & Hl & Hv & _). split; assumption.
Qed.

Lemma revealed_answers_are_drawn_witness :
  exists qs, QuizTab.quiz quizShown = Some qs /\ 1 < length qs.
Proof.
  apply (proj1 (revealed_answers_are_drawn quizSession
                  (Index.finalState quizSession Index.init)
                  (Index.requests quizSession Index.init)
                  quizShown 0 eq_refl eq_refl) 1).
  apply elem_of_union_r, elem_of_singleton. reflexivity.
Defined.

(** X4. A new quiz always arrives with every answer hidden: in every state
    the page can reach with the quiz tab mounted, an [ok] response draws
    the questions of its body with no answer revealed (an empty list gives
    the placeholder, a missing [quiz] field makes the result area throw),
    and leaves no request pending. *)
Theorem new_quiz_hides_all_answers :
  forall (evs : list Index.Event) (st' : Index.State) (reqs : list Request)
         (data : QuizTab.Data) (d1 : DashboardView.State)
         (req : option Request),
    Index.run evs Index.init = Some (st', reqs) ->
    DashboardView.step
      (DashboardView.QuizEv (QuizTab.FetchDone (Response true data)))
      (Index.dashboardView st') = Some (d1, req) ->
    exists s1,
      DashboardView.content d1 = DashboardView.QuizC s1 0
      /\ req = None
      /\ QuizTab.render s1
         = match QuizTab.data_quiz data with
           | None => QuizTab.RenderError
           | Some [] => QuizTab.Placeholder
           | Some qs => QuizTab.Results qs ∅
           end.
Proof.
  intros evs st' reqs data d1 req H.
  destruct (page_run_ok evs _ _ _ H page_init_ok) as [(Hc & _) _].
  unfold DashboardView.step.
  destruct (DashboardView.content (Index.dashboardView st'))
    as [s p|s p|s p|]; try discriminate.
  destruct Hc as (Hp & Hl & _).
  cbn [QuizTab.enabled]. destruct p as [|p]; [discriminate|].
  destruct (QuizTab.isLoading s) eqn:El; [|discriminate Hp].
  injection Hp as ->. destruct (Hl eq_refl) as [_ Hv].
  cbn. intros [= <- <-]. eexists. split; [reflexivity|].
  split; [reflexivity|].
  unfold QuizTab.render. cbn. rewrite Hv. reflexivity.
Qed.

Lemma new_quiz_hides_all_answers_witness :
  exists s1,
    DashboardView.content
      (Index.dashboardView
         (Index.finalState (firstn 7 quizSession) Index.init))
    = DashboardView.QuizC s1 0
    /\ None = @None Request
    /\ QuizTab.render s1
       = QuizTab.Results [goodQuestion; badQuestion] ∅.
Proof.
  apply (new_quiz_hides_all_answers (firstn 6 quizSession)
           (Index.finalState (firstn 6 quizSession) Index.init)
           (Index.requests (firstn 6 quizSession) Index.init)
           twoQuestions); reflexivity.
Defined.

(** X5. [toggleAnswer] flips the membership of its index and of no other,
    and toggling the same index twice restores the state. *)
Theorem toggle_answer_flips_one_index :
  forall (i : nat) (st : QuizTab.State),
    (forall j : nat,
        j ∈ QuizTab.visibleAnswers (QuizTab.toggleAnswer i st)
        <-> (j <> i /\ j ∈ QuizTab.visibleAnswers st)
            \/ (j = i /\ i ∉ QuizTab.visibleAnswers st))
    /\ QuizTab.toggleAnswer i (QuizTab.toggleAnswer i st) = st.
Proof.
  intros i st.
  assert (Hflip : forall j : nat,
             j ∈ QuizTab.visibleAnswers (QuizTab.toggleAnswer i st)
             <-> (j <> i /\ j ∈ QuizTab.visibleAnswers st)
                 \/ (j = i /\ i ∉ QuizTab.visibleAnswers st)).
  { intros j. cbn.
    destruct (decide (i ∈ QuizTab.visibleAnswers st)) as [Hi|Hi].
    - rewrite elem_of_difference, elem_of_singleton. tauto.
    - rewrite elem_of_union, elem_of_singleton.
      destruct (decide (j = i)) as [->|Hne]; tauto. }
  split; [exact Hflip|].
  destruct st as [d n q l v]. unfold QuizTab.toggleAnswer at 1.
  cbn [QuizTab.quizDifficulty QuizTab.numQuestions QuizTab.quiz
       QuizTab.isLoading]. f_equal.
  set (st := QuizTab.mkState d n q l v) in *.
  set (v1 := QuizTab.visibleAnswers (QuizTab.toggleAnswer i st)) in *.
  assert (Hv : forall j, j ∈ (if decide (i ∈ v1) then v1 ∖ {[i]}
                              else v1 ∪ {[i]}) <-> j ∈ v).
  { intros j. pose proof (Hflip j) as Hj. pose proof (Hflip i) as Hi.
    change (QuizTab.visibleAnswers st) with v in Hj, Hi. fold v1 in Hj, Hi.
    destruct (decide (i ∈ v1)) as [H1|H1].
    - rewrite elem_of_difference, elem_of_singleton.
      destruct (decide (j = i)) as [->|Hne]; tauto.
    - rewrite elem_of_union, elem_of_singleton.
      destruct (decide (j = i)) as [->|Hne]; [|tauto].
      destruct (decide (i ∈ v)); tauto. }
  apply set_eq. exact Hv.
Qed.

(** X6. On a quiz card the options drawn in green are exactly the options
    equal to the answer, and only while the answer is revealed.  When the
    answer is not among the options none is green, though the line under
    the card still prints the answer. *)
Theorem highlighted_options_equal_answer :
  forall (visible : gset nat) (questionIndex : nat)
         (q : QuizTab.QuizQuestion),
    (forall o : JsString,
        In o (Render.highlightedOptions visible questionIndex q)
        <-> questionIndex ∈ visible
            /\ In o (QuizTab.options q) /\ o = QuizTab.answer q)
    /\ (~ In (QuizTab.answer q) (QuizTab.options q) ->
        Render.highlightedOptions visible questionIndex q = [])
    /\ (questionIndex ∈ visible ->
        Render.answerLine visible questionIndex q = Some (QuizTab.answer q))
    /\ (questionIndex ∉ visible ->
        Render.highlightedOptions visible questionIndex q = []
        /\ Render.answerLine visible questionIndex q = None).
Proof.
  intros visible qi q.
  assert (Hin : forall o : JsString,
             In o (Render.highlightedOptions visible qi q)
             <-> qi ∈ visible /\ In o (QuizTab.options q)
                 /\ o = QuizTab.answer q).
  { intros o. unfold Render.highlightedOptions, Render.optionHighlighted.
    rewrite List.filter_In, andb_true_iff, bool_decide_eq_true, strictEq_true.
    tauto. }
  assert (Hnil : forall l : list JsString, (forall o, ~ In o l) -> l = []).
  { intros [|o l] H; [reflexivity|]. elim (H o). now left. }
  split; [exact Hin|]. split; [|split].
  - intros Hno. apply Hnil. intros o Ho. apply Hin in Ho.
    destruct Ho as (_ & Ho & ->). contradiction.
  - intros Hv. unfold Render.answerLine.
    now rewrite bool_decide_eq_true_2.
  - intros Hv. split.
    + apply Hnil. intros o Ho. apply Hin in Ho. tauto.
    + unfold Render.answerLine. now rewrite bool_decide_eq_false_2.
Qed.

Lemma highlighted_options_equal_answer_witness :
  Render.highlightedOptions {[1]} 1 badQuestion = []
  /\ Render.answerLine {[1]} 1 badQuestion = Some (js "O2").
Proof.
  split.
  - apply (proj1 (proj2 (highlighted_options_equal_answer {[1]} 1
                           badQuestion))).
    cbn. intros [H|[H|[H|[H|H]]]]; try discriminate H. exact H.
  - apply (proj1 (proj2 (proj2 (highlighted_options_equal_answer {[1]} 1
                                  badQuestion)))).
    apply elem_of_singleton. reflexivity.
Defined.

(** X7. The labels in front of the options are the capital letters A to Z
    for the first twenty-six options, and two options of a card never
    share a label as long as it has fewer than 65471 options, where
    [String.fromCharCode] starts over. *)
Theorem option_labels_distinct :
  (forall i : nat, i < 26 ->
      Render.optionLabel i = [(65 + N.of_nat i)%N]
      /\ (65 <= 65 + N.of_nat i <= 90)%N)
  /\ (forall i j : nat,
         (N.of_nat i < 65471)%N -> (N.of_nat j < 65471)%N ->
         Render.optionLabel i = Render.optionLabel j -> i = j)
  /\ Render.fromCharCode (65 + 65471) = [0%N].
Proof.
  split; [|split].
  - intros i Hi. unfold Render.optionLabel, Render.fromCharCode.
    rewrite N.mod_small by lia. split; [reflexivity | lia].
  - intros i j Hi Hj. unfold Render.optionLabel, Render.fromCharCode.
    rewrite !N.mod_small by lia. intros [= H]. lia.
  - reflexivity.
Qed.

Lemma option_labels_distinct_witness :
  Render.optionLabel 3 = js "D".
Proof.
  exact (proj1 (proj1 option_labels_distinct 3 ltac:(lia))).
Defined.

(** X8. The Enter key sends a question even while another one is loading,
    which the button, then disabled, does not: with the explain tab
    mounted and a question that is not blank, Enter without Shift issues
    the request for the text as typed and one more request is pending;
    any other key, or Enter with Shift, sends nothing and changes
    nothing. *)
Theorem enter_sends_while_loading :
  (forall (d : DashboardView.State) (s : ExplainTab.State) (p : nat),
      DashboardView.content d = DashboardView.ExplainC s p ->
      trim (ExplainTab.conceptQuery s) <> [] ->
      DashboardView.step
        (DashboardView.ExplainEv (ExplainTab.KeyPress (js "Enter") false)) d
      = Some ({| DashboardView.activeTab := DashboardView.activeTab d;
                 DashboardView.content :=
                   DashboardView.ExplainC
                     {| ExplainTab.conceptQuery := ExplainTab.conceptQuery s;
                        ExplainTab.explanation := Some [];
                        ExplainTab.isLoading := true |} (p + 1) |},
              Some (ExplainTab.explainRequest (ExplainTab.conceptQuery s)))
      /\ (ExplainTab.isLoading s = true ->
          DashboardView.step (DashboardView.ExplainEv ExplainTab.Click) d
          = None))
  /\ (forall (key : JsString) (shiftKey : bool) (s : ExplainTab.State),
         key <> js "Enter" \/ shiftKey = true ->
         ExplainTab.step (ExplainTab.KeyPress key shiftKey) s = (s, None)).
Proof.
  split.
  - intros d s p Hc Hq. unfold DashboardView.step. rewrite Hc.
    cbn [ExplainTab.enabled ExplainTab.step].
    unfold ExplainTab.handleKeyPress, ExplainTab.buttonDisabled.
    change (strictEq (js "Enter") (js "Enter") && negb false) with true.
    cbn match. unfold ExplainTab.handleExplain_start.
    destruct (trim (ExplainTab.conceptQuery s)) as [|c r]; [now elim Hq|].
    cbn. split; [reflexivity|]. now intros ->.
  - intros key shiftKey s H. cbn [ExplainTab.step].
    unfold ExplainTab.handleKeyPress.
    destruct H as [H| ->].
    + apply strictEq_false in H. now rewrite H.
    + now rewrite andb_false_r.
Qed.

Lemma enter_sends_while_loading_witness :
  DashboardView.step
    (DashboardView.ExplainEv (ExplainTab.KeyPress (js "Enter") false))
    {| DashboardView.activeTab := js "explain";
       DashboardView.content := DashboardView.ExplainC askingOxygen 1 |}
  = Some ({| DashboardView.activeTab := js "explain";
             DashboardView.content := DashboardView.ExplainC askingOxygen 2 |},
          Some (ExplainTab.explainRequest (js "What produces oxygen?")))
  /\ DashboardView.step (DashboardView.ExplainEv ExplainTab.Click)
       {| DashboardView.activeTab := js "explain";
          DashboardView.content := DashboardView.ExplainC askingOxygen 1 |}
     = None.
Proof.
  destruct (proj1 enter_sends_while_loading
              {| DashboardView.activeTab := js "explain";
                 DashboardView.content := DashboardView.ExplainC askingOxygen 1 |}
              askingOxygen 1 eq_refl) as [H1 H2].
  - discriminate.
  - split; [exact H1 | exact (H2 eq_refl)].
Defined.

(** ** SummaryTab: the button *)

Lemma summary_run_hasGenerated (evs : list SummaryTab.Event) :
  forall st : SummaryTab.State,
    SummaryTab.hasGenerated (fst (SummaryTab.run evs st)) = true
    <-> SummaryTab.hasGenerated st = true \/ Exists isSummarySuccess evs.
Proof.
  induction evs as [|ev rest IH]; intros st; cbn [SummaryTab.run].
  - cbn. split; [auto|]. intros [H|H]; [exact H | inversion H].
  - destruct (SummaryTab.step ev st) as [st1 req] eqn:Hstep.
    specialize (IH st1).
    destruct (SummaryTab.run rest st1) as [st2 reqs]. cbn [fst] in *.
    rewrite IH, Exists_cons. clear IH.
    destruct ev as [|[|[] data]]; cbn in Hstep; injection Hstep as <- _; cbn.
    + split; [intros [H|H]; auto | intros [H|[[d H]|H]]; auto; discriminate].
    + split; [intros [H|H]; auto | intros [H|[[d H]|H]]; auto; discriminate].
    + split; [|auto]. intros _. right. left. now exists data.
    + split; [intros [H|H]; auto | intros [H|[[d H]|H]]; auto; discriminate].
Qed.

(** X9. The summary button reads "Regenerate Summary" exactly when no
    request is loading and some earlier response was [ok]: failures and
    clicks never set [hasGenerated], and nothing ever clears it. *)
Theorem regenerate_label_after_success :
  forall evs : list SummaryTab.Event,
    let st := fst (SummaryTab.run evs SummaryTab.init) in
    (SummaryTab.hasGenerated st = true <-> Exists isSummarySuccess evs)
    /\ (Render.summaryButtonLabel st = Render.RegenerateSummary
        <-> SummaryTab.isLoading st = false /\ Exists isSummarySuccess evs).
Proof.
  intros evs st.
  assert (H : SummaryTab.hasGenerated st = true <-> Exists isSummarySuccess evs).
  { unfold st. rewrite summary_run_hasGenerated. cbn.
    split; [intros [H|H]; [discriminate | exact H] | auto]. }
  split; [exact H|]. rewrite <- H. unfold Render.summaryButtonLabel.
  destruct (SummaryTab.isLoading st), (SummaryTab.hasGenerated st);
    split; try discriminate; intuition discriminate.
Qed.

(** X10. An [ok] response whose [summary] (or [explanation]) is missing or
    empty draws the placeholder of a tab that was never used; the summary
    button nevertheless reads "Regenerate Summary". *)
Theorem empty_result_shows_placeholder :
  (forall (data : SummaryTab.Data) (st : SummaryTab.State),
      truthy_opt (SummaryTab.data_summary data) = false ->
      let st' := SummaryTab.handleGenerateSummary_finish (Response true data) st in
      SummaryTab.render st' = SummaryTab.render SummaryTab.init
      /\ Render.summaryButtonLabel st' = Render.RegenerateSummary)
  /\ (forall (data : ExplainTab.Data) (st : ExplainTab.State),
         truthy_opt (ExplainTab.data_explanation data) = false ->
         ExplainTab.render
           (ExplainTab.handleExplain_finish (Response true data) st)
         = ExplainTab.render ExplainTab.init).
Proof.
  split.
  - intros data st H. cbn. unfold SummaryTab.render. cbn. now rewrite H.
  - intros data st H. unfold ExplainTab.render. cbn. now rewrite H.
Qed.

Lemma empty_result_shows_placeholder_witness :
  SummaryTab.render
    (SummaryTab.handleGenerateSummary_finish (Response true noSummary)
       SummaryTab.init)
  = SummaryTab.Placeholder.
Proof.
  exact (proj1 (proj1 empty_result_shows_placeholder noSummary SummaryTab.init
                  eq_refl)).
Defined.

(** ** DashboardView: the tab bar *)




(** An [ok] quiz response without a [quiz] field leaves nothing on the
    screen, and no button of the dashboard can be clicked any more. *)
Example quiz_field_missing_blanks_the_page :
  Index.screen (Index.finalState quizFieldMissing Index.init)
  = Index.BlankScreen
  /\ Index.step (Index.DashboardEv (DashboardView.ClickTab 0))
       (Index.finalState quizFieldMissing Index.init) = None
  /\ Index.run quizFieldMissing Index.init <> None.
Proof. repeat split; try reflexivity. discriminate. Qed.

(** X12. Leaving a tab discards what it shows: clicking the button of
    another tab and then the button of the first one again leaves the first
    tab freshly mounted, in its initial state with no request pending,
    while clicking the button of the tab that is shown changes nothing. *)
Theorem leaving_a_tab_resets_it :
  forall (d : DashboardView.State) (i j : nat)
         (tab other : JsString * JsString),
    DashboardView.tabs !! i = Some tab ->
    DashboardView.tabs !! j = Some other ->
    i <> j ->
    DashboardView.activeTab d = fst tab ->
    DashboardView.step (DashboardView.ClickTab i) d = Some (d, None)
    /\ exists d1,
         DashboardView.step (DashboardView.ClickTab j) d = Some (d1, None)
         /\ DashboardView.step (DashboardView.ClickTab i) d1
            = Some ({| DashboardView.activeTab := fst tab;
                       DashboardView.content := DashboardView.mount (fst tab) |},
                    None).
Proof.
  intros d i j tab other Hi Hj Hne Ha.
  unfold DashboardView.step. rewrite Hi, Hj.
  destruct tab as [id label], other as [id' label']. cbn [fst] in *.
  unfold DashboardView.setActiveTab. rewrite Ha.
  assert (Hdiff : id' <> id).
  { destruct i as [|[|[|i]]], j as [|[|[|j]]]; try discriminate;
      try (now elim Hne); cbn in Hi, Hj;
      injection Hi as <- _; injection Hj as <- _; discriminate. }
  replace (strictEq id id) with true by (symmetry; now apply strictEq_true).
  replace (strictEq id' id) with false by (symmetry; now apply strictEq_false).
  split; [reflexivity|]. eexists. split; [reflexivity|].
  cbn [DashboardView.activeTab].
  replace (strictEq id id') with false
    by (symmetry; apply strictEq_false; congruence).
  reflexivity.
Qed.

Lemma leaving_a_tab_resets_it_witness :
  exists d1,
    DashboardView.step (DashboardView.ClickTab 1)
      (Index.dashboardView (Index.finalState quizSession Index.init))
    = Some (d1, None)
    /\ DashboardView.step (DashboardView.ClickTab 2) d1
       = Some ({| DashboardView.activeTab := js "quiz";
                  DashboardView.content := DashboardView.QuizC QuizTab.init 0 |},
               None).
Proof.
  exact (proj2 (leaving_a_tab_resets_it
                  (Index.dashboardView (Index.finalState quizSession Index.init))
                  2 1 (js "quiz", js "Quiz") (js "explain", js "Q&A Chatbot")
                  eq_refl eq_refl ltac:(discriminate) eq_refl)).
Defined.

(** ** The page: what precedes the dashboard *)

Lemma upload_step_is_upload (e : UploadView.Event) (u : UploadView.State)
    (r : Request) :
  snd (fst (UploadView.step e u)) = Some r -> Index.isUploadRequest r = true.
Proof.
  destruct e as [files| | |files| |res]; cbn [UploadView.step fst snd];
    try discriminate.
  - unfold UploadView.handleUpload_start.
    destruct (UploadView.selectedFile u); [|discriminate].
    cbn. now intros [= <-].
  - destruct (UploadView.handleUpload_finish res u). discriminate.
Qed.

Lemma index_step_started (ev : Index.Event) (st st' : Index.State)
    (req : option Request) :
  Index.step ev st = Some (st', req) ->
  uploadStarted st' ->
  uploadStarted st
  \/ exists r, req = Some r /\ Index.isUploadRequest r = true.
Proof.
  unfold uploadStarted.
  destruct ev as [[files| | |files| |r]| |e]; cbn [Index.step].
  1-5: destruct (Index.appState st) eqn:Ha; [|discriminate];
       match goal with
       | |- context [UploadView.enabled ?p ?e ?u] =>
           destruct (UploadView.enabled p e u); [|discriminate];
           pose proof (upload_step_is_upload e u) as Hup;
           destruct (UploadView.step e u) as [[u1 rq] t]
       end;
       cbn [fst snd] in Hup; intros [= <- <-]; cbn;
       destruct rq as [r0|];
       [intros _; right; eauto
       | intros [H|[H|H]]; [auto | auto | discriminate H]].
  - destruct (Index.uploadPending st); [discriminate|]. auto.
  - destruct (Index.timers st); [discriminate|]. auto.
  - destruct (Index.appState st); [discriminate|]. auto.
Qed.

Lemma index_run_started (evs : list Index.Event) :
  forall (st st' : Index.State) (reqs : list Request),
    Index.run evs st = Some (st', reqs) ->
    uploadStarted st' ->
    uploadStarted st
    \/ Exists (fun r => Index.isUploadRequest r = true) reqs.
Proof.
  induction evs as [|ev rest IH]; intros st st' reqs; cbn [Index.run].
  - intros [= <- <-]. auto.
  - destruct (Index.step ev st) as [[st1 req]|] eqn:Hstep; [|discriminate].
    destruct (Index.run rest st1) as [[st2 reqs2]|] eqn:Hrun; [|discriminate].
    intros [= <- <-] Hs.
    destruct (IH _ _ _ Hrun Hs) as [H|H].
    + destruct (index_step_started _ _ _ _ Hstep H) as [H1|(r & -> & Hr)];
        [auto|]. right. now constructor.
    + right. destruct req as [r|]; [now constructor 2 | exact H].
Qed.

Lemma known_upload_is_pdf (r : Request) :
  knownRequest r ->
  Index.isUploadRequest r = true ->
  exists file, r = UploadView.uploadRequest file
               /\ file_type file = js "application/pdf".
Proof.
  intros [H|[->|[(q & -> & _)|(d & z & -> & _)]]]; [auto | discriminate ..].
Qed.

(** X13. The dashboard is never shown before a PDF has been sent: in every
    run of the page that ends on the dashboard, or with an upload or its
    timer pending, the requests issued include the upload of a file of
    type [application/pdf]. *)
Theorem dashboard_follows_pdf_upload :
  forall (evs : list Index.Event) (st' : Index.State) (reqs : list Request),
    Index.run evs Index.init = Some (st', reqs) ->
    uploadStarted st' ->
    Exists (fun r => exists file, r = UploadView.uploadRequest file
                     /\ file_type file = js "application/pdf") reqs.
Proof.
  intros evs st' reqs Hrun Hs.
  pose proof (proj2 (page_run_ok evs _ _ _ Hrun page_init_ok)) as Hk.
  destruct (index_run_started evs _ _ _ Hrun Hs) as [[H|[H|H]]|H];
    try (now elim H); try discriminate H.
  rewrite List.Exists_exists in *. rewrite List.Forall_forall in Hk.
  destruct H as (r & Hin & Hr). exists r. split; [exact Hin|].
  apply known_upload_is_pdf; auto.
Qed.

Lemma dashboard_follows_pdf_upload_witness :
  Exists (fun r => exists file, r = UploadView.uploadRequest file
                   /\ file_type file = js "application/pdf")
         (Index.requests oneUpload Index.init).
Proof.
  apply (dashboard_follows_pdf_upload oneUpload
           (Index.finalState oneUpload Index.init)).
  - reflexivity.
  - right. right. reflexivity.
Defined.

(** ** UploadView: the banner *)

(** X14. A successful upload can be announced in the error style: the
    [ok] branch of [handleUpload] sets the message but not [isError], so
    when a file that is not a PDF was dropped or picked while the upload
    was pending, the success message is drawn as an error. *)
Theorem success_in_error_style :
  forall (other : File) (rest : list File) (data : UploadView.Data)
         (st : UploadView.State),
    file_type other <> js "application/pdf" ->
    UploadView.renderStatus
      (fst (UploadView.handleUpload_finish (Response true data)
              (UploadView.handleDrop (other :: rest) st)))
    = UploadView.ErrorBanner (js "PDF uploaded and processed successfully!")
    /\ UploadView.renderStatus
         (fst (UploadView.handleUpload_finish (Response true data)
                 (UploadView.handleFileInputChange (Some (other :: rest)) st)))
       = UploadView.ErrorBanner (js "PDF uploaded and processed successfully!").
Proof.
  intros other rest data st H.
  cbn [UploadView.handleDrop UploadView.handleFileInputChange].
  rewrite !handleFileSelect_not_pdf by exact H. split; reflexivity.
Qed.

Lemma success_in_error_style_witness :
  UploadView.renderStatus
    (fst (UploadView.run
            [UploadView.Drop [notesPdf]; UploadView.ClickUpload;
             UploadView.Drop [readmeTxt];
             UploadView.FetchDone
               (Response true {| UploadView.data_error := None |})]
            UploadView.init))
  = UploadView.ErrorBanner (js "PDF uploaded and processed successfully!").
Proof.
  refine (proj1 (success_in_error_style readmeTxt []
                   {| UploadView.data_error := None |}
                   (fst (UploadView.handleUpload_start notesSelected)) _)).
  discriminate.
Defined.

(** ** QuizTab: the count, from the keyboard to the request *)

(** X15. Typing the decimal text of a safe integer (below 2^53 in
    magnitude) into the count input and clicking the button sends that
    integer: the input stores it (5 when it is 0), and
    [parseInt(numQuestions.toString())] in the request gives it back, so
    [num_questions] is the stored count, with the difficulty of the
    state.  Beyond 2^53 the count is a rounded double, see
    [count_beyond_safe_integers]. *)
Theorem typed_count_is_sent :
  forall (z : Z) (st : QuizTab.State),
    (Z.abs z < 2 ^ 53)%Z ->
    let st1 := QuizTab.handleNumQuestionsChange (decimalText z) st in
    let n := if (z =? 0)%Z then 5%Z else z in
    QuizTab.numQuestions st1 = Num n
    /\ snd (QuizTab.handleGenerateQuiz_start st1)
       = Some {| url := js "http://localhost:5000/quiz";
                 method := POST;
                 headers := [(js "Content-Type", js "application/json")];
                 body := Some (JsonBody
                           [(js "difficulty", JStr (QuizTab.quizDifficulty st));
                            (js "num_questions", JNum n)]) |}.
Proof.
  intros z st Hz st1 n.
  assert (H : QuizTab.numQuestions st1 = Num n).
  { unfold st1, n.
    cbn [QuizTab.handleNumQuestionsChange QuizTab.numQuestions].
    rewrite parseInt_decimalText, toNumber_safe by exact Hz.
    unfold number_or. cbn [number_truthy].
    now destruct (z =? 0)%Z. }
  split; [exact H|].
  cbn [QuizTab.handleGenerateQuiz_start snd]. rewrite H.
  rewrite quiz_request_carries_count; [reflexivity|].
  unfold n. rewrite two_53 in *. destruct (z =? 0)%Z; lia.
Qed.

Lemma typed_count_is_sent_witness :
  QuizTab.numQuestions
    (QuizTab.handleNumQuestionsChange (decimalText (-7)) QuizTab.init)
  = Num (-7).
Proof.
  refine (proj1 (typed_count_is_sent (-7) QuizTab.init _)).
  rewrite two_53. reflexivity.
Defined.

(** Beyond the safe integers the count is a double: 2^53 + 1 is stored as
    2^53; 10^21 is stored, printed as [1e+21] and sent as 1; a count of
    310 digits is stored as Infinity and sent as [null]. *)
Example count_beyond_safe_integers :
  QuizTab.numQuestions
    (QuizTab.handleNumQuestionsChange (js "9007199254740993") QuizTab.init)
  = Num 9007199254740992
  /\ Number_toString (Num (10 ^ 21)) = js "1e+21"
  /\ snd (QuizTab.handleGenerateQuiz_start
            (QuizTab.handleNumQuestionsChange (js "1000000000000000000000")
               QuizTab.init))
     = Some {| url := js "http://localhost:5000/quiz";
               method := POST;
               headers := [(js "Content-Type", js "application/json")];
               body := Some (JsonBody [(js "difficulty", JStr (js "Medium"));
                                       (js "num_questions", JNum 1)]) |}
  /\ QuizTab.numQuestions
       (QuizTab.handleNumQuestionsChange (repeat 57%N 310) QuizTab.init)
     = Infinity false
  /\ snd (QuizTab.handleGenerateQuiz_start
            (QuizTab.handleNumQuestionsChange (repeat 57%N 310) QuizTab.init))
     = Some {| url := js "http://localhost:5000/quiz";
               method := POST;
               headers := [(js "Content-Type", js "application/json")];
               body := Some (JsonBody [(js "difficulty", JStr (js "Medium"));
                                       (js "num_questions", JNull)]) |}.
Proof. repeat split; vm_compute; reflexivity. Qed.

Example number_toString_samples :
  map (fun z => Number_toString (toNumber z))
      [0; 5; -25; 2 ^ 60; 123456789012345678901; 2 ^ 70; 15 * 10 ^ 20;
       2 ^ 1024 - 2 ^ 970 - 1; 2 ^ 1024 - 2 ^ 970]%Z
  = [js "0"; js "5"; js "-25"; js "1152921504606847000";
     js "123456789012345680000"; js "1.1805916207174113e+21"; js "1.5e+21";
     js "1.7976931348623157e+308"; js "Infinity"].
Proof. vm_compute. reflexivity. Qed.

Lemma digitsPrefix_until_dot (s rest : JsString) :
  Forall digitChar s ->
  digitsPrefix 10 (s ++ 46%N :: rest) = map digitOf s.
Proof.
  induction 1 as [|c r Hc Hr IH]; cbn [digitsPrefix map app]; [reflexivity|].
  now rewrite digitChar_radixDigit, IH.
Qed.

(** X16. A count typed with a fraction is cut at the decimal point, not
    rounded: digits followed by a point and anything else are stored as
    the digits alone would be, so 2.9 gives 2 and 0.9 gives the default 5. *)
Theorem fraction_is_truncated :
  forall (c : N) (r rest : JsString) (st : QuizTab.State),
    Forall digitChar (c :: r) ->
    QuizTab.handleNumQuestionsChange ((c :: r) ++ 46%N :: rest) st
    = QuizTab.handleNumQuestionsChange (c :: r) st.
Proof.
  intros c r rest st H. unfold QuizTab.handleNumQuestionsChange. do 2 f_equal.
  rewrite (proj1 (parseInt_digits c r H)).
  pose proof (digitsPrefix_until_dot _ rest H) as Hd.
  inversion H as [|? ? Hc Hr]; subst.
  unfold parseInt. cbn [app trimStart]. rewrite (digitChar_not_space c Hc).
  replace (c =? 45)%N with false
    by (symmetry; apply N.eqb_neq; unfold digitChar in Hc; lia).
  replace (c =? 43)%N with false
    by (symmetry; apply N.eqb_neq; unfold digitChar in Hc; lia).
  destruct r as [|c1 r']; cbn [app] in *.
  - cbn [N.eqb Pos.eqb orb]. rewrite andb_false_r, Hd. cbn [map].
    f_equal; try lia.
  - inversion Hr as [|? ? Hc1 Hr']; subst.
    replace (c1 =? 120)%N with false
      by (symmetry; apply N.eqb_neq; unfold digitChar in Hc1; lia).
    replace (c1 =? 88)%N with false
      by (symmetry; apply N.eqb_neq; unfold digitChar in Hc1; lia).
    cbn [orb]. rewrite andb_false_r, Hd. cbn [map]. f_equal; try lia.
Qed.

Lemma fraction_is_truncated_witness :
  QuizTab.numQuestions (QuizTab.handleNumQuestionsChange (js "2.9") QuizTab.init)
  = Num 2
  /\ QuizTab.numQuestions
       (QuizTab.handleNumQuestionsChange (js "0.9") QuizTab.init) = Num 5.
Proof.
  assert (H2 : Forall digitChar [50%N])
    by (repeat constructor; unfold digitChar; lia).
  assert (H0 : Forall digitChar [48%N])
    by (repeat constructor; unfold digitChar; lia).
  split.
  - exact (f_equal QuizTab.numQuestions
             (fraction_is_truncated 50 [] (js "9") QuizTab.init H2)).
  - exact (f_equal QuizTab.numQuestions
             (fraction_is_truncated 48 [] (js "9") QuizTab.init H0)).
Defined.

(** X17. Whatever the outcome of an upload, the same file can be sent
    again without being selected again: when the request completes the
    selected file is still selected, the button is enabled, and a click
    issues the upload of that file.  This holds after a success too,
    until the page leaves the upload view. *)
Theorem upload_can_be_repeated :
  forall (r : FetchResult UploadView.Data) (st : UploadView.State)
         (file : File),
    UploadView.selectedFile st = Some file ->
    let st' := fst (UploadView.handleUpload_finish r st) in
    UploadView.selectedFile st' = Some file
    /\ UploadView.buttonDisabled st' = false
    /\ snd (UploadView.handleUpload_start st')
       = Some (UploadView.uploadRequest file).
Proof.
  intros r st file H.
  destruct r as [|[] data]; cbn;
    unfold UploadView.buttonDisabled, UploadView.handleUpload_start; cbn;
    rewrite H; auto.
Qed.

Lemma upload_can_be_repeated_witness :
  snd (UploadView.handleUpload_start
         (fst (UploadView.handleUpload_finish Rejected
                 (fst (UploadView.handleUpload_start notesSelected)))))
  = Some (UploadView.uploadRequest notesPdf).
Proof.
  exact (proj2 (proj2 (upload_can_be_repeated Rejected
                         (fst (UploadView.handleUpload_start notesSelected))
                         notesPdf eq_refl))).
Defined.

(** X18. A timer that fires when the dashboard is already shown changes
    nothing the user sees: the dashboard keeps its tab and the state of
    the mounted tab, no request is issued, and one timer fewer is
    pending. *)
Theorem late_timer_keeps_dashboard :
  forall (st st' : Index.State) (req : option Request),
    Index.appState st = Index.dashboard ->
    Index.step Index.TimerFires st = Some (st', req) ->
    Index.appState st' = Index.dashboard
    /\ Index.dashboardView st' = Index.dashboardView st
    /\ req = None
    /\ S (Index.timers st') = Index.timers st.
Proof.
  intros st st' req Ha. cbn [Index.step].
  destruct (Index.timers st) as [|n]; [discriminate|].
  intros [= <- <-]. cbn. rewrite Ha. auto.
Qed.

Lemma late_timer_keeps_dashboard_witness :
  Index.dashboardView
    (Index.finalState (secondSuccess ++ [Index.TimerFires]) Index.init)
  = Index.dashboardView (Index.finalState secondSuccess Index.init).
Proof.
  exact (proj1 (proj2 (late_timer_keeps_dashboard
                         (Index.finalState secondSuccess Index.init)
                         (Index.finalState (secondSuccess ++ [Index.TimerFires])
                            Index.init)
                         None eq_refl eq_refl))).
Defined.
